(** * A card gallery with persisted like flags

    Shallow embedding of the two components of the repository, [App]
    (the Gallery, src/App.jsx) and [Card] (components/Card/Card),
    together with the small part of the host they rely on: strings,
    [localStorage], [JSON], the console, the clock and React's keyed
    mounting of children under an error boundary. *)

From Stdlib Require Import String Ascii NArith ZArith DecimalN.
From stdpp Require Import gmap list.

Open Scope N_scope.

(** ** The host: strings, JSON, storage keys *)

Module JS.

(** A JavaScript string is a sequence of UTF-16 code units. *)
Abbreviation jsstring := (list N).

(** A string literal of the source, all of whose characters are ASCII. *)
Definition lit (s : string) : jsstring :=
  N_of_ascii <$> list_ascii_of_string s.

(** Truthiness of a string: every string but the empty one. *)
Definition truthy (s : jsstring) : bool :=
  match s with [] => false | _ :: _ => true end.

(** The code units [String.prototype.trim] strips: ECMAScript's
    WhiteSpace (TAB, VT, FF, SP, NBSP, ZWNBSP and the Unicode space
    separators) and LineTerminator (LF, CR, LS, PS). *)
Definition is_space (c : N) : bool :=
  bool_decide (c ∈ [9; 10; 11; 12; 13; 32; 160; 5760; 8232; 8233;
                    8239; 8287; 12288; 65279])
  || ((8192 <=? c) && (c <=? 8202)).

Fixpoint trimStart (s : jsstring) : jsstring :=
  match s with
  | [] => []
  | c :: s' => if is_space c then trimStart s' else s
  end.

Definition trimEnd (s : jsstring) : jsstring :=
  reverse (trimStart (reverse s)).

Definition trim (s : jsstring) : jsstring := trimEnd (trimStart s).

(** Decimal digits of a numeral, most significant first. *)
Fixpoint digits (d : Decimal.uint) : jsstring :=
  match d with
  | Decimal.Nil => []
  | Decimal.D0 d => 48 :: digits d
  | Decimal.D1 d => 49 :: digits d
  | Decimal.D2 d => 50 :: digits d
  | Decimal.D3 d => 51 :: digits d
  | Decimal.D4 d => 52 :: digits d
  | Decimal.D5 d => 53 :: digits d
  | Decimal.D6 d => 54 :: digits d
  | Decimal.D7 d => 55 :: digits d
  | Decimal.D8 d => 56 :: digits d
  | Decimal.D9 d => 57 :: digits d
  end.

(** [`${n}`] for a non-negative integer [n], as [Date.now()] returns:
    its decimal numeral. *)
Definition Number_toString (n : N) : jsstring := digits (N.to_uint n).

(** What the components observe of a thrown value: only that
    [JSON.parse] raised a [SyntaxError]. *)
Inductive exn : Set := SyntaxError.

(** Outcome of [JSON.parse].  The components only ever branch on the
    like state and negate it, so a parsed value is kept as its truth
    value (its truthiness). *)
Inductive parsed : Set :=
| Value (truth : bool)
| Throws (e : exn).

Section JSON.
(** [JSON.parse] on every text other than the two [JSON.stringify]
    produces for a boolean is left to the host. *)
Variable parse_other : jsstring → parsed.

Definition JSON_parse (text : jsstring) : parsed :=
  if decide (text = lit "true") then Value true
  else if decide (text = lit "false") then Value false
  else parse_other text.
End JSON.

Definition JSON_stringify (b : bool) : jsstring :=
  if b then lit "true" else lit "false".

(** [localStorage]: a flat map from strings to strings. *)
Abbreviation Storage := (gmap jsstring jsstring).

(** Entries of the console. *)
Inductive log : Type :=
| LikeChanged (title : jsstring) (liked : bool)
| Deleted (title : jsstring)
| NewCard (id title : jsstring) (initialLiked : bool)
| CardError (e : exn).

End JS.
Import JS.

(** ** The Card component *)

Module Card.

(** A [cardId] is a string or [null] ([Card.defaultProps]); the tests
    [if (cardId)] of the component pass for a string that is not empty. *)
Abbreviation cardId_t := (option jsstring).

(** [`card-${cardId}-liked`] *)
Definition storageKey (cardId : jsstring) : jsstring :=
  lit "card-" ++ cardId ++ lit "-liked".

(** Props of a Card rendered by a parent whose state has type [P];
    the callbacks are the parent's state updates. *)
Record Props (P : Type) : Type := {
  title : jsstring;
  initialLiked : bool;
  cardId : cardId_t;
  onLikeChange : option (cardId_t → bool → P → P);
  onDelete : option (cardId_t → P → P)
}.
Arguments title {P} _.
Arguments initialLiked {P} _.
Arguments cardId {P} _.
Arguments onLikeChange {P} _.
Arguments onDelete {P} _.

(** What a handler of the Card acts on. *)
Record Env (P : Type) : Type := {
  localStorage : Storage;
  console : list log;
  parent : P
}.
Arguments localStorage {P} _.
Arguments console {P} _.
Arguments parent {P} _.

Section Component.
Context {P : Type}.
Variable parse_other : jsstring → parsed.

(** The [useState] initializer of [isLiked]. *)
Definition initialState (storage : Storage) (initialLiked : bool)
    (cardId : cardId_t) : parsed :=
  match cardId with
  | Some i =>
      if truthy i then
        match storage !! storageKey i with
        | Some savedState => JSON_parse parse_other savedState
        | None => Value initialLiked
        end
      else Value initialLiked
  | None => Value initialLiked
  end.

(** [toggleLike]: the updater passed to [setIsLiked], with its side
    effects; returns the new like state. *)
Definition toggleLike (props : Props P) (prevLiked : bool) (env : Env P)
    : bool * Env P :=
  let newLikedState := negb prevLiked in
  let storage1 :=
    match cardId props with
    | Some i =>
        if truthy i
        then <[storageKey i := JSON_stringify newLikedState]> (localStorage env)
        else localStorage env
    | None => localStorage env
    end in
  let parent1 :=
    match onLikeChange props with
    | Some callback => callback (cardId props) newLikedState (parent env)
    | None => parent env
    end in
  (newLikedState,
   {| localStorage := storage1;
      console := console env ++ [LikeChanged (title props) newLikedState];
      parent := parent1 |}).

(** [handleDelete]; [confirmed] is the answer of [window.confirm]. *)
Definition handleDelete (props : Props P) (confirmed : bool) (env : Env P)
    : Env P :=
  if confirmed then
    let storage1 :=
      match cardId props with
      | Some i =>
          if truthy i then delete (storageKey i) (localStorage env)
          else localStorage env
      | None => localStorage env
      end in
    let parent1 :=
      match onDelete props with
      | Some callback => callback (cardId props) (parent env)
      | None => parent env
      end in
    {| localStorage := storage1;
       console := console env ++ [Deleted (title props)];
       parent := parent1 |}
  else env.

(** [handleKeyPress]: Enter and Space run the action. *)
Definition handleKeyPress (key : jsstring) (action : Env P → Env P)
    (env : Env P) : Env P :=
  if bool_decide (key = lit "Enter") || bool_decide (key = lit " ")
  then action env else env.
End Component.

(** The label the Card renders for a like state. *)
Definition statusLabel (isLiked : bool) : jsstring :=
  if isLiked then lit "Liked" else lit "Not Liked".

End Card.


(** ** The error boundary of App.jsx *)

Module ErrorBoundary.

Record State : Type := {
  hasError : bool;
  error : option exn
}.

(** The constructor's [this.state]. *)
Definition initial : State := {| hasError := false; error := None |}.

Definition getDerivedStateFromError (e : exn) : State :=
  {| hasError := true; error := Some e |}.

(** [componentDidCatch]: one [console.error]. *)
Definition componentDidCatch (e : exn) : list log := [CardError e].

(** The [onClick] of the Try Again button. *)
Definition tryAgain (_ : State) : State :=
  {| hasError := false; error := None |}.

(** [render]: the fallback panel, or the children. *)
Definition render {V : Type} (fallback : V) (st : State) (children : V) : V :=
  if hasError st then fallback else children.

End ErrorBoundary.

(** ** The Gallery: state and handlers of [App] *)

Module App.

(** A card record of the list. *)
Record CardRec : Type := {
  id : jsstring;
  title : jsstring;
  initialLiked : bool
}.

Definition initialCards : list CardRec :=
  [ {| id := lit "react-dev"; title := lit "React Development";
       initialLiked := true |};
    {| id := lit "js-fundamentals"; title := lit "JavaScript Fundamentals";
       initialLiked := false |};
    {| id := lit "css-animations"; title := lit "CSS Animations";
       initialLiked := true |};
    {| id := lit "web-design"; title := lit "Web Design Principles";
       initialLiked := false |} ].

(** The four [useState] cells.  [likedCards] is a [Set], of which only
    membership and [size] are used. *)
Record State : Type := {
  cards : list CardRec;
  likedCards : gset Card.cardId_t;
  newCardTitle : jsstring;
  isAddingCard : bool
}.

Definition initialState : State :=
  {| cards := initialCards; likedCards := ∅;
     newCardTitle := []; isAddingCard := false |}.

(** The test of the effect:
    [savedState === 'true' || (savedState === null && card.initialLiked)]. *)
Definition savedLiked (storage : Storage) (card : CardRec) : bool :=
  let savedState := storage !! Card.storageKey (id card) in
  bool_decide (savedState = Some (lit "true"))
  || (bool_decide (savedState = None) && initialLiked card).

(** The set the effect builds with [cards.forEach]. *)
Definition likedSet (storage : Storage) (cards : list CardRec)
    : gset Card.cardId_t :=
  foldl (λ acc card,
           if savedLiked storage card then acc ∪ {[ Some (id card) ]} else acc)
        ∅ cards.

(** The effect on [[cards]]: [setLikedCards(likedSet)]. *)
Definition syncEffect (storage : Storage) (st : State) : State :=
  {| cards := cards st; likedCards := likedSet storage (cards st);
     newCardTitle := newCardTitle st; isAddingCard := isAddingCard st |}.

Definition handleLikeChange (cardId : Card.cardId_t) (isLiked : bool)
    (st : State) : State :=
  {| cards := cards st;
     likedCards := if isLiked then likedCards st ∪ {[ cardId ]}
                   else likedCards st ∖ {[ cardId ]};
     newCardTitle := newCardTitle st; isAddingCard := isAddingCard st |}.

Definition handleCardDelete (cardId : Card.cardId_t) (st : State) : State :=
  {| cards := filter (λ card, Some (id card) ≠ cardId) (cards st);
     likedCards := likedCards st ∖ {[ cardId ]};
     newCardTitle := newCardTitle st; isAddingCard := isAddingCard st |}.

(** The record [handleAddCard] builds; [now] is [Date.now()]. *)
Definition newCard (now : N) (title : jsstring) : CardRec :=
  {| id := lit "card-" ++ Number_toString now;
     title := trim title;
     initialLiked := false |}.

(** [handleAddCard]: the new state and what it logs. *)
Definition handleAddCard (now : N) (st : State) : State * list log :=
  if truthy (trim (newCardTitle st)) then
    let card := newCard now (newCardTitle st) in
    ({| cards := cards st ++ [card]; likedCards := likedCards st;
        newCardTitle := []; isAddingCard := false |},
     [NewCard (id card) (title card) (initialLiked card)])
  else (st, []).

(** [handleSubmit]: [e.preventDefault()], then [handleAddCard]. *)
Definition handleSubmit (now : N) (st : State) : State * list log :=
  handleAddCard now st.

(** The [onChange] of the input, the Add New Card button, and Cancel
    (the same two updates as Escape in [handleKeyPress]). *)
Definition setNewCardTitle (value : jsstring) (st : State) : State :=
  {| cards := cards st; likedCards := likedCards st;
     newCardTitle := value; isAddingCard := isAddingCard st |}.

Definition openForm (st : State) : State :=
  {| cards := cards st; likedCards := likedCards st;
     newCardTitle := newCardTitle st; isAddingCard := true |}.

Definition cancelAdd (st : State) : State :=
  {| cards := cards st; likedCards := likedCards st;
     newCardTitle := []; isAddingCard := false |}.

Definition handleKeyPress (key : jsstring) (st : State) : State :=
  if bool_decide (key = lit "Escape") then cancelAdd st else st.

(** The memoized statistics. *)
Definition likeCount (st : State) : nat := size (likedCards st).
Definition totalCards (st : State) : nat := length (cards st).

(** The props [App] gives the Card of a record. *)
Definition cardProps (card : CardRec) : Card.Props State :=
  {| Card.title := title card;
     Card.initialLiked := initialLiked card;
     Card.cardId := Some (id card);
     Card.onLikeChange := Some handleLikeChange;
     Card.onDelete := Some handleCardDelete |}.

End App.

(** ** The rendered page *)

Module View.

(** What a Card shows. *)
Record CardView : Type := {
  heading : jsstring;
  status : jsstring;
  deleteButton : bool
}.

Inductive AddSection : Type :=
| AddButton
| AddForm (value : jsstring) (createDisabled : bool).

(** The header: the three statistics and the add-card section. *)
Record Header : Type := {
  total : nat;
  liked : nat;
  notLiked : Z;
  addSection : AddSection
}.

Inductive Main : Type :=
| EmptyState
| CardsGrid (shown : list CardView).

(** What the error boundary shows: its fallback panel with the Try
    Again button, or its children (header, main and footer). *)
Inductive Page : Type :=
| ErrorPanel
| Content (header : Header) (main : Main).

Definition headerOf (page : Page) : option Header :=
  match page with
  | ErrorPanel => None
  | Content header _ => Some header
  end.

Definition mainOf (page : Page) : option Main :=
  match page with
  | ErrorPanel => None
  | Content _ main => Some main
  end.

End View.

(** ** The page at run time: store, console, App state, boundary, Cards *)

Module Gallery.

(** [mounted] holds the [isLiked] state of every mounted Card under its
    React key, which is the id of its record. *)
Record World : Type := {
  localStorage : Storage;
  console : list log;
  app : App.State;
  boundary : ErrorBoundary.State;
  mounted : gmap jsstring bool
}.

(** Outcome of rendering the children of the boundary. *)
Inductive mounting : Type :=
| Mounted (cardStates : gmap jsstring bool)
| Failed (e : exn).

(** User events on the page. *)
Inductive Event : Type :=
| ClickLike (key : jsstring)
| ClickDelete (key : jsstring) (confirmed : bool)
| OpenForm
| TypeTitle (value : jsstring)
| CancelAdd
| Submit (now : N)
| TryAgain.

Definition envOf (w : World) : Card.Env App.State :=
  {| Card.localStorage := localStorage w;
     Card.console := console w;
     Card.parent := app w |}.

(** The world after a handler of the Card with key [key] has run,
    leaving the Card in state [isLiked]. *)
Definition afterHandler (w : World) (key : jsstring) (isLiked : bool)
    (env : Card.Env App.State) : World :=
  {| localStorage := Card.localStorage env;
     console := Card.console env;
     app := Card.parent env;
     boundary := boundary w;
     mounted := <[key := isLiked]> (mounted w) |}.

(** The record [cards.map] renders under key [key]. *)
Definition cardOf (key : jsstring) (cards : list App.CardRec)
    : option App.CardRec :=
  List.find (λ card, bool_decide (App.id card = key)) cards.

(** The effect of [App], run after a render in which [cards] was set. *)
Definition runEffect (w : World) : World :=
  {| localStorage := localStorage w;
     console := console w;
     app := App.syncEffect (localStorage w) (app w);
     boundary := boundary w;
     mounted := mounted w |}.

Section Render.
Variable parse_other : jsstring → parsed.

(** State of the Card of a record after a render: a Card that is
    mounted keeps its state, a new one runs its initializer. *)
Definition cardState (storage : Storage) (old : gmap jsstring bool)
    (card : App.CardRec) : parsed :=
  match old !! App.id card with
  | Some isLiked => Value isLiked
  | None =>
      Card.initialState parse_other storage (App.initialLiked card)
        (Some (App.id card))
  end.

(** [cards.map(card => <Card key={card.id} … />)], in order; the first
    Card that throws ends the render. *)
Fixpoint mountCards (storage : Storage) (old : gmap jsstring bool)
    (cards : list App.CardRec) : mounting :=
  match cards with
  | [] => Mounted ∅
  | card :: rest =>
      match cardState storage old card with
      | Throws e => Failed e
      | Value isLiked =>
          match mountCards storage old rest with
          | Failed e => Failed e
          | Mounted states => Mounted (<[App.id card := isLiked]> states)
          end
      end
  end.

(** One render of the boundary and what is below it.  With the error
    flag set nothing below is mounted; a Card that throws sets the flag
    through [getDerivedStateFromError] and is logged by
    [componentDidCatch]. *)
Definition render (w : World) : World :=
  if ErrorBoundary.hasError (boundary w) then
    {| localStorage := localStorage w; console := console w; app := app w;
       boundary := boundary w; mounted := ∅ |}
  else
    match mountCards (localStorage w) (mounted w) (App.cards (app w)) with
    | Mounted states =>
        {| localStorage := localStorage w; console := console w;
           app := app w; boundary := boundary w; mounted := states |}
    | Failed e =>
        {| localStorage := localStorage w;
           console := console w ++ ErrorBoundary.componentDidCatch e;
           app := app w;
           boundary := ErrorBoundary.getDerivedStateFromError e;
           mounted := ∅ |}
    end.

(** First load of the page over a given store. *)
Definition initialLoad (storage : Storage) : World :=
  runEffect (render {| localStorage := storage; console := [];
                       app := App.initialState;
                       boundary := ErrorBoundary.initial;
                       mounted := ∅ |}).

(** A click (or Enter, or Space) on the like button of a Card. *)
Definition clickLike (key : jsstring) (w : World) : World :=
  if ErrorBoundary.hasError (boundary w) then w
  else
    match cardOf key (App.cards (app w)), mounted w !! key with
    | Some card, Some prevLiked =>
        let '(newLikedState, env) :=
          Card.toggleLike (App.cardProps card) prevLiked (envOf w) in
        render (afterHandler w key newLikedState env)
    | _, _ => w
    end.

(** A click on the delete button of a Card, answered by [confirmed].
    Only a confirmed delete sets state: the page is rendered again and,
    [cards] having been set, the effect runs. *)
Definition clickDelete (key : jsstring) (confirmed : bool) (w : World)
    : World :=
  if ErrorBoundary.hasError (boundary w) then w
  else
    match cardOf key (App.cards (app w)), mounted w !! key with
    | Some card, Some isLiked =>
        let w1 :=
          afterHandler w key isLiked
            (Card.handleDelete (App.cardProps card) confirmed (envOf w)) in
        if confirmed then runEffect (render w1) else w1
    | _, _ => w
    end.

(** An update of the state of [App] alone. *)
Definition setApp (f : App.State → App.State) (w : World) : World :=
  render {| localStorage := localStorage w; console := console w;
            app := f (app w); boundary := boundary w;
            mounted := mounted w |}.

(** Submitting the add-card form while the clock reads [now]. *)
Definition submit (now : N) (w : World) : World :=
  if ErrorBoundary.hasError (boundary w) then w
  else if negb (App.isAddingCard (app w)) then w
  else
    let '(app1, logged) := App.handleSubmit now (app w) in
    if truthy (trim (App.newCardTitle (app w))) then
      runEffect (render {| localStorage := localStorage w;
                           console := console w ++ logged;
                           app := app1; boundary := boundary w;
                           mounted := mounted w |})
    else w.

(** The Try Again button of the fallback panel. *)
Definition tryAgain (w : World) : World :=
  if ErrorBoundary.hasError (boundary w) then
    render {| localStorage := localStorage w; console := console w;
              app := app w;
              boundary := ErrorBoundary.tryAgain (boundary w);
              mounted := mounted w |}
  else w.

Definition step (w : World) (ev : Event) : World :=
  match ev with
  | ClickLike key => clickLike key w
  | ClickDelete key confirmed => clickDelete key confirmed w
  | OpenForm =>
      if ErrorBoundary.hasError (boundary w) || App.isAddingCard (app w)
      then w else setApp App.openForm w
  | TypeTitle value =>
      if ErrorBoundary.hasError (boundary w) || negb (App.isAddingCard (app w))
      then w else setApp (App.setNewCardTitle value) w
  | CancelAdd =>
      if ErrorBoundary.hasError (boundary w) || negb (App.isAddingCard (app w))
      then w else setApp App.cancelAdd w
  | Submit now => submit now w
  | TryAgain => tryAgain w
  end.

Definition run (w : World) (events : list Event) : World :=
  foldl step w events.

End Render.

(** What [App] returns for a world. *)
Definition cardView (w : World) (card : App.CardRec) : option View.CardView :=
  (λ isLiked,
     {| View.heading := App.title card;
        View.status := Card.statusLabel isLiked;
        View.deleteButton := true |}) <$> mounted w !! App.id card.

Definition header (w : World) : View.Header :=
  {| View.total := App.totalCards (app w);
     View.liked := App.likeCount (app w);
     View.notLiked :=
       (Z.of_nat (App.totalCards (app w)) - Z.of_nat (App.likeCount (app w)))%Z;
     View.addSection :=
       if App.isAddingCard (app w)
       then View.AddForm (App.newCardTitle (app w))
                         (negb (truthy (trim (App.newCardTitle (app w)))))
       else View.AddButton |}.

Definition main (w : World) : View.Main :=
  match App.cards (app w) with
  | [] => View.EmptyState
  | _ :: _ => View.CardsGrid (omap (cardView w) (App.cards (app w)))
  end.

Definition view (w : World) : View.Page :=
  ErrorBoundary.render View.ErrorPanel (boundary w)
    (View.Content (header w) (main w)).

(** Number of Cards on the page that show the Liked label. *)
Definition shownLiked (page : View.Page) : nat :=
  match page with
  | View.Content _ (View.CardsGrid shown) =>
      length (filter (λ cv, View.status cv = lit "Liked") shown)
  | _ => 0%nat
  end.

(** The page after the store was changed from outside it (another tab,
    the developer tools). *)
Definition withStorage (storage : Storage) (w : World) : World :=
  {| localStorage := storage; console := console w; app := app w;
     boundary := boundary w; mounted := mounted w |}.

(** The clock readings of the adds of a run, in order. *)
Definition clockReadings (events : list Event) : list N :=
  omap (λ ev, match ev with Submit now => Some now | _ => None end) events.

End Gallery.

(** ** Stores the Cards themselves write, and sample hosts *)

(** Every entry under the key of a card holds one of the two texts a
    Card writes. *)
Definition flagsOnly (storage : Storage) : Prop :=
  ∀ i text, storage !! Card.storageKey i = Some text →
            text = lit "true" ∨ text = lit "false".

(** The id [handleAddCard] generates at clock reading [now]. *)
Definition generatedId (now : N) : jsstring :=
  lit "card-" ++ Number_toString now.

(** A [JSON.parse] that rejects every text but [true] and [false]; it
    stands for the host on runs that parse no other text, or only texts
    that are not JSON. *)
Definition rejecting : jsstring → parsed := λ _, Throws SyntaxError.

(** A [JSON.parse] that knows the numeral [1], a truthy number. *)
Definition numeralOne : jsstring → parsed :=
  λ text, if decide (text = lit "1") then Value true else Throws SyntaxError.

(** The page is consistent when it renders normally over a store of
    such flags, the listed ids are pairwise distinct, every listed card
    is a seed or was added at one of the clock readings [used], every
    listed Card is mounted in the state its flag (or, with none stored,
    its default) gives, and the liked-set is the one the effect builds. *)
Record consistent (used : list N) (w : Gallery.World) : Prop := {
  rendering : ErrorBoundary.hasError (Gallery.boundary w) = false;
  flags : flagsOnly (Gallery.localStorage w);
  distinct : NoDup (App.id <$> App.cards (Gallery.app w));
  origin : ∀ card, card ∈ App.cards (Gallery.app w) →
             card ∈ App.initialCards
             ∨ ∃ t, t ∈ used ∧ App.id card = generatedId t;
  states : ∀ card, card ∈ App.cards (Gallery.app w) →
             Gallery.mounted w !! App.id card
             = Some (App.savedLiked (Gallery.localStorage w) card);
  keys : ∀ key, is_Some (Gallery.mounted w !! key) →
           key ∈ App.id <$> App.cards (Gallery.app w);
  synced : App.likedCards (Gallery.app w)
           = App.likedSet (Gallery.localStorage w) (App.cards (Gallery.app w))
}.


(** A title as [handleAddCard] stores it: not empty, and with no white
    space at either end. *)
Definition trimmedTitle (card : App.CardRec) : Prop :=
  App.title card ≠ [] ∧ trim (App.title card) = App.title card.

(** Every listed Card is mounted on a page that renders, under distinct
    ids, and no other Card is. *)
Definition settled (w : Gallery.World) : Prop :=
  ErrorBoundary.hasError (Gallery.boundary w) = false
  ∧ NoDup (App.id <$> App.cards (Gallery.app w))
  ∧ (∀ card, card ∈ App.cards (Gallery.app w) →
       is_Some (Gallery.mounted w !! App.id card))
  ∧ (∀ key, is_Some (Gallery.mounted w !! key) →
       key ∈ App.id <$> App.cards (Gallery.app w)).

(** * Properties *)

(** ** Strings and keys *)

Lemma storageKey_inj (a b : jsstring) :
  Card.storageKey a = Card.storageKey b → a = b.
Proof.
  unfold Card.storageKey. intros H.
  apply app_inv_head in H. by apply app_inv_tail in H.
Qed.

Lemma digits_inj (d d' : Decimal.uint) : digits d = digits d' → d = d'.
Proof.
  revert d'. induction d; intros d'; destruct d'; simpl; intros H;
    try discriminate; try reflexivity;
    injection H as H; f_equal; by apply IHd.
Qed.

Lemma Number_toString_inj (n m : N) :
  Number_toString n = Number_toString m → n = m.
Proof.
  unfold Number_toString. intros H.
  by apply Unsigned.to_uint_inj, digits_inj.
Qed.

Lemma generatedId_inj (n m : N) : generatedId n = generatedId m → n = m.
Proof.
  unfold generatedId. intros H.
  apply app_inv_head in H. by apply Number_toString_inj.
Qed.

Lemma generatedId_truthy (now : N) : truthy (generatedId now) = true.
Proof. reflexivity. Qed.

(** One goal for each of the four seed cards. *)
Ltac each_seed Hin :=
  unfold App.initialCards in Hin;
  repeat (apply elem_of_cons in Hin as [-> | Hin]);
  [..| by apply elem_of_nil in Hin].

Lemma seed_not_generated (card : App.CardRec) (now : N) :
  card ∈ App.initialCards → App.id card ≠ generatedId now.
Proof. intros Hin. each_seed Hin; unfold generatedId; simpl; discriminate. Qed.

Lemma seed_truthy (card : App.CardRec) :
  card ∈ App.initialCards → truthy (App.id card) = true.
Proof. intros Hin. each_seed Hin; reflexivity. Qed.

Lemma seeds_distinct : NoDup (App.id <$> App.initialCards).
Proof.
  apply NoDup_ListNoDup. vm_compute.
  repeat constructor; simpl; intuition discriminate.
Qed.

Lemma JSON_parse_stringify (parse_other : jsstring → parsed) (b : bool) :
  JSON_parse parse_other (JSON_stringify b) = Value b.
Proof. by destruct b. Qed.

Lemma trimStart_nil (s : jsstring) :
  trimStart s = [] ↔ Forall (λ c, is_space c = true) s.
Proof.
  induction s as [|c s IH]; simpl.
  - split; [constructor | done].
  - destruct (is_space c) eqn:Hc.
    + rewrite IH. split; [by constructor | by inversion 1].
    + split; [done |]. inversion 1; congruence.
Qed.

Lemma trimStart_prefix (s : jsstring) :
  ∃ pre, s = pre ++ trimStart s ∧ Forall (λ c, is_space c = true) pre.
Proof.
  induction s as [|c s (pre & Hs & Hpre)]; simpl.
  - by exists [].
  - destruct (is_space c) eqn:Hc.
    + exists (c :: pre). split; [simpl; by f_equal | by constructor].
    + by exists [].
Qed.

(** The trimmed value is empty exactly for the empty and the
    whitespace-only strings. *)
Lemma trim_nil (s : jsstring) :
  trim s = [] ↔ Forall (λ c, is_space c = true) s.
Proof.
  unfold trim, trimEnd. split.
  - intros H. apply (f_equal reverse) in H.
    rewrite reverse_involutive in H. change (reverse []) with (@nil N) in H.
    apply trimStart_nil, Forall_reverse in H.
    rewrite reverse_involutive in H.
    destruct (trimStart_prefix s) as (pre & Hs & Hpre).
    rewrite Hs. by apply Forall_app.
  - intros H. apply trimStart_nil in H. by rewrite H.
Qed.

(** ** The Card on its own *)

Lemma initialState_with_id (parse_other : jsstring → parsed)
    (storage : Storage) (cardId : jsstring) (initialLiked : bool) :
  truthy cardId = true →
  Card.initialState parse_other storage initialLiked (Some cardId)
  = match storage !! Card.storageKey cardId with
    | Some savedState => JSON_parse parse_other savedState
    | None => Value initialLiked
    end.
Proof. intros Hid. unfold Card.initialState. by rewrite Hid. Qed.

(** C2: a Card that has an id seeds its like state from the persisted
    flag whenever one is stored under its key, whatever the default:
    the state is what [JSON.parse] makes of the stored text, so [b] for
    the text of the boolean [b]; with no flag stored it is the default. *)
Theorem initial_state_prefers_persisted_flag
    (parse_other : jsstring → parsed) (storage : Storage) (cardId : jsstring) :
  truthy cardId = true →
  (∀ savedState, storage !! Card.storageKey cardId = Some savedState →
     ∀ initialLiked,
       Card.initialState parse_other storage initialLiked (Some cardId)
       = JSON_parse parse_other savedState)
  ∧ (∀ b, storage !! Card.storageKey cardId = Some (JSON_stringify b) →
     ∀ initialLiked,
       Card.initialState parse_other storage initialLiked (Some cardId)
       = Value b)
  ∧ (storage !! Card.storageKey cardId = None →
     ∀ initialLiked,
       Card.initialState parse_other storage initialLiked (Some cardId)
       = Value initialLiked).
Proof.
  intros Hid. split; [| split].
  - intros savedState Hsaved initialLiked.
    by rewrite initialState_with_id, Hsaved.
  - intros b Hsaved initialLiked.
    rewrite initialState_with_id, Hsaved by done. apply JSON_parse_stringify.
  - intros Hsaved initialLiked. by rewrite initialState_with_id, Hsaved.
Qed.

Lemma initial_state_prefers_persisted_flag_witness :
  truthy (lit "js-fundamentals") = true
  ∧ Card.initialState rejecting
      {[ Card.storageKey (lit "js-fundamentals") := lit "true" ]} false
      (Some (lit "js-fundamentals")) = Value true
  ∧ Card.initialState rejecting
      {[ Card.storageKey (lit "js-fundamentals") := lit "true" ]} true
      (Some (lit "react-dev")) = Value true.
Proof.
  split; [reflexivity |]. split.
  - apply (initial_state_prefers_persisted_flag rejecting
             {[ Card.storageKey (lit "js-fundamentals") := lit "true" ]}
             (lit "js-fundamentals") eq_refl).
    vm_compute. reflexivity.
  - apply (initial_state_prefers_persisted_flag rejecting
             {[ Card.storageKey (lit "js-fundamentals") := lit "true" ]}
             (lit "react-dev") eq_refl).
    vm_compute. reflexivity.
Defined.

(** C3, as amended: two toggles in a row return the Card's like state to
    what it was; the store then holds, under the Card's key, the text of
    that state, and is as before in every other entry.  So the store is
    back to what it was exactly when the flag was stored with that text
    before the first toggle. *)
Theorem double_toggle_restores_state {P : Type} (props : Card.Props P)
    (prevLiked : bool) (env : Card.Env P) :
  let once := Card.toggleLike props prevLiked env in
  let twice := Card.toggleLike props once.1 once.2 in
  twice.1 = prevLiked
  ∧ Card.localStorage twice.2
    = match Card.cardId props with
      | Some i =>
          if truthy i
          then <[Card.storageKey i := JSON_stringify prevLiked]>
                 (Card.localStorage env)
          else Card.localStorage env
      | None => Card.localStorage env
      end
  ∧ (∀ i, Card.cardId props = Some i →
       Card.localStorage env !! Card.storageKey i
       = Some (JSON_stringify prevLiked) →
       Card.localStorage twice.2 = Card.localStorage env).
Proof.
  simpl. rewrite negb_involutive.
  split; [reflexivity |].
  assert (Heq : ∀ i,
    <[Card.storageKey i := JSON_stringify prevLiked]>
      (<[Card.storageKey i := JSON_stringify (negb prevLiked)]>
         (Card.localStorage env))
    = <[Card.storageKey i := JSON_stringify prevLiked]> (Card.localStorage env))
    by (intros i; apply insert_insert_eq).
  split.
  - destruct (Card.cardId props) as [i|]; [| reflexivity].
    destruct (truthy i); [apply Heq | reflexivity].
  - intros i -> Hsaved. destruct (truthy i); [| reflexivity].
    rewrite Heq. by apply insert_id.
Qed.

(** C3 as stated fails: on a fresh store the css-animations Card, liked
    by default, has no persisted flag; after two toggles it is liked
    again, but the flag is now stored. *)
Lemma double_toggle_creates_flag :
  let card := {| App.id := lit "css-animations";
                 App.title := lit "CSS Animations";
                 App.initialLiked := true |} in
  let env := {| Card.localStorage := ∅; Card.console := [];
                Card.parent := App.initialState |} in
  let once := Card.toggleLike (App.cardProps card) true env in
  let twice := Card.toggleLike (App.cardProps card) once.1 once.2 in
  Card.initialState rejecting ∅ (App.initialLiked card) (Some (App.id card))
  = Value true
  ∧ twice.1 = true
  ∧ Card.localStorage env !! Card.storageKey (App.id card) = None
  ∧ Card.localStorage twice.2 !! Card.storageKey (App.id card)
    = Some (lit "true")
  ∧ Card.localStorage twice.2 ≠ Card.localStorage env.
Proof.
  cbv zeta. split; [reflexivity |]. split; [reflexivity |].
  split; [reflexivity |]. split; [vm_compute; reflexivity |].
  intros H.
  apply (f_equal (λ m : Storage, m !! Card.storageKey (lit "css-animations"))) in H.
  vm_compute in H. discriminate.
Qed.

Lemma double_toggle_restores_state_witness :
  let props : Card.Props nat :=
    {| Card.title := lit "Sample"; Card.initialLiked := false;
       Card.cardId := Some (lit "sample"); Card.onLikeChange := None;
       Card.onDelete := None |} in
  let env : Card.Env nat :=
    {| Card.localStorage := {[ Card.storageKey (lit "sample") := lit "true" ]};
       Card.console := []; Card.parent := 0%nat |} in
  let once := Card.toggleLike props true env in
  let twice := Card.toggleLike props once.1 once.2 in
  twice.1 = true ∧ Card.localStorage twice.2 = Card.localStorage env.
Proof.
  cbv zeta.
  pose proof (double_toggle_restores_state
    {| Card.title := lit "Sample"; Card.initialLiked := false;
       Card.cardId := Some (lit "sample"); Card.onLikeChange := None;
       Card.onDelete := None |} true
    ({| Card.localStorage := {[ Card.storageKey (lit "sample") := lit "true" ]};
        Card.console := []; Card.parent := 0%nat |} : Card.Env nat))
    as (H1 & _ & H3).
  split; [exact H1 |].
  apply (H3 (lit "sample") eq_refl). vm_compute. reflexivity.
Defined.

(** C10: a Card whose [cardId] is [null] never touches the store.  Its
    state is seeded from the default alone, whatever the store holds;
    a toggle flips the state, leaves the store as it is and calls
    [onLikeChange], when supplied, with [null] and the new state; a
    confirmed delete leaves the store as it is and calls [onDelete],
    when supplied, with [null]. *)
Theorem card_without_id_leaves_store_alone {P : Type}
    (parse_other : jsstring → parsed) (props : Card.Props P) :
  Card.cardId props = None →
  (∀ storage,
     Card.initialState parse_other storage (Card.initialLiked props)
       (Card.cardId props) = Value (Card.initialLiked props))
  ∧ (∀ prevLiked env,
       let after := Card.toggleLike props prevLiked env in
       after.1 = negb prevLiked
       ∧ Card.localStorage after.2 = Card.localStorage env
       ∧ Card.parent after.2
         = match Card.onLikeChange props with
           | Some callback => callback None (negb prevLiked) (Card.parent env)
           | None => Card.parent env
           end)
  ∧ (∀ env,
       let after := Card.handleDelete props true env in
       Card.localStorage after = Card.localStorage env
       ∧ Card.parent after
         = match Card.onDelete props with
           | Some callback => callback None (Card.parent env)
           | None => Card.parent env
           end).
Proof.
  intros Hnull. split; [| split].
  - intros storage. by rewrite Hnull.
  - intros prevLiked env. unfold Card.toggleLike. simpl. by rewrite Hnull.
  - intros env. unfold Card.handleDelete. simpl. by rewrite Hnull.
Qed.

Lemma card_without_id_leaves_store_alone_witness :
  let props : Card.Props nat :=
    {| Card.title := lit "Sample"; Card.initialLiked := true;
       Card.cardId := None; Card.onLikeChange := Some (λ _ _ calls, S calls);
       Card.onDelete := Some (λ _ calls, S calls) |} in
  let env : Card.Env nat :=
    {| Card.localStorage := {[ Card.storageKey (lit "null") := lit "false" ]};
       Card.console := []; Card.parent := 0%nat |} in
  Card.cardId props = None
  ∧ Card.initialState rejecting (Card.localStorage env) true None = Value true
  ∧ Card.localStorage (Card.toggleLike props true env).2 = Card.localStorage env
  ∧ Card.parent (Card.toggleLike props true env).2 = 1%nat
  ∧ Card.parent (Card.handleDelete props true env) = 1%nat.
Proof.
  cbv zeta.
  pose proof (card_without_id_leaves_store_alone rejecting
    ({| Card.title := lit "Sample"; Card.initialLiked := true;
        Card.cardId := None; Card.onLikeChange := Some (λ _ _ calls, S calls);
        Card.onDelete := Some (λ _ calls, S calls) |} : Card.Props nat)
    eq_refl) as (H1 & H2 & H3).
  split; [reflexivity |]. split; [apply H1 |].
  split; [apply H2 |]. split; [apply H2 | apply H3].
Defined.

(** ** The handlers of the Gallery *)

Lemma elem_of_likedSet (storage : Storage) (cards : list App.CardRec)
    (x : Card.cardId_t) :
  x ∈ App.likedSet storage cards
  ↔ ∃ card, card ∈ cards ∧ App.savedLiked storage card = true
            ∧ x = Some (App.id card).
Proof.
  unfold App.likedSet.
  assert (Hgen : ∀ acc : gset Card.cardId_t,
    x ∈ foldl (λ acc card,
                 if App.savedLiked storage card
                 then acc ∪ {[ Some (App.id card) ]} else acc) acc cards
    ↔ x ∈ acc ∨ ∃ card, card ∈ cards ∧ App.savedLiked storage card = true
                        ∧ x = Some (App.id card)).
  { induction cards as [|c cards IH]; intros acc; simpl.
    - split; [by left | intros [H | (c & Hc & _)]; [done | by apply elem_of_nil in Hc]].
    - rewrite IH. split.
      + intros [Hacc | (c' & Hin & Hsaved & ->)].
        * destruct (App.savedLiked storage c) eqn:Hc; [| by left].
          apply elem_of_union in Hacc as [Hacc | Hx]; [by left |].
          apply elem_of_singleton in Hx as ->.
          right. exists c. split; [left | done].
        * right. exists c'. split; [by right | done].
      + intros [Hacc | (c' & Hin & Hsaved & ->)].
        * left. destruct (App.savedLiked storage c); [| done].
          apply elem_of_union. by left.
        * apply elem_of_cons in Hin as [-> | Hin].
          -- left. rewrite Hsaved. apply elem_of_union. right.
             by apply elem_of_singleton.
          -- right. by exists c'. }
  rewrite Hgen. split; [intros [H | H]; [by apply elem_of_empty in H | done] | by right].
Qed.

Lemma cardOf_Some (key : jsstring) (cards : list App.CardRec)
    (card : App.CardRec) :
  Gallery.cardOf key cards = Some card → card ∈ cards ∧ App.id card = key.
Proof.
  unfold Gallery.cardOf. intros H. apply find_some in H as [Hin Hkey].
  split; [by apply list_elem_of_In | by apply bool_decide_eq_true in Hkey].
Qed.

Lemma render_app (parse_other : jsstring → parsed) (w : Gallery.World) :
  Gallery.app (Gallery.render parse_other w) = Gallery.app w.
Proof.
  unfold Gallery.render. destruct (ErrorBoundary.hasError _); [done |].
  by destruct (Gallery.mountCards _ _ _ _).
Qed.

Lemma render_localStorage (parse_other : jsstring → parsed) (w : Gallery.World) :
  Gallery.localStorage (Gallery.render parse_other w) = Gallery.localStorage w.
Proof.
  unfold Gallery.render. destruct (ErrorBoundary.hasError _); [done |].
  by destruct (Gallery.mountCards _ _ _ _).
Qed.

Lemma filter_keeps_all {A : Type} (Q : A → Prop) `{∀ x, Decision (Q x)}
    (l : list A) :
  (∀ x, x ∈ l → Q x) → filter Q l = l.
Proof.
  induction l as [|x l IH]; intros Hall; [done |].
  rewrite filter_cons_True by (apply Hall; left).
  f_equal. apply IH. intros y Hy. apply Hall. by right.
Qed.

Lemma filter_removes_the_one (cards : list App.CardRec) (card : App.CardRec) :
  NoDup (App.id <$> cards) → card ∈ cards →
  ∃ before after,
    cards = before ++ card :: after
    ∧ filter (λ c, Some (App.id c) ≠ Some (App.id card)) cards = before ++ after.
Proof.
  intros Hnd Hin. apply list_elem_of_split in Hin as (before & after & ->).
  exists before, after. split; [done |].
  rewrite fmap_app, fmap_cons in Hnd.
  apply NoDup_app in Hnd as (_ & Hbefore & Hafter).
  apply NoDup_cons in Hafter as [Hafter _].
  rewrite filter_app, filter_cons_False by (intros H; by apply H).
  f_equal.
  - apply filter_keeps_all. intros c Hc Heq. injection Heq as Heq.
    apply (Hbefore (App.id card)).
    + rewrite <- Heq. by apply list_elem_of_fmap_2.
    + left.
  - apply filter_keeps_all. intros c Hc Heq. injection Heq as Heq.
    apply Hafter. rewrite <- Heq. by apply list_elem_of_fmap_2.
Qed.

Lemma cardOf_elem (cards : list App.CardRec) (card : App.CardRec) :
  card ∈ cards →
  ∃ first, Gallery.cardOf (App.id card) cards = Some first
           ∧ App.id first = App.id card.
Proof.
  unfold Gallery.cardOf. intros Hin.
  destruct (find _ cards) as [first|] eqn:Hfind.
  - exists first. split; [done |].
    apply find_some in Hfind as [_ Hkey]. by apply bool_decide_eq_true in Hkey.
  - exfalso. apply list_elem_of_In in Hin.
    apply (find_none _ _ Hfind) in Hin. by apply bool_decide_eq_false in Hin.
Qed.

(** C6: with a pending title that trims to nothing, which is a title
    that is empty or made of white space only, adding is a no-op:
    [handleAddCard] returns the state it was given (so the list, the
    count and the liked-set are as before) and logs nothing, and a
    submit leaves the whole page, boundary and console included, as it
    was. *)
Theorem blank_title_adds_no_card (parse_other : jsstring → parsed) (now : N)
    (w : Gallery.World) :
  trim (App.newCardTitle (Gallery.app w)) = [] →
  Forall (λ c, is_space c = true) (App.newCardTitle (Gallery.app w))
  ∧ App.handleAddCard now (Gallery.app w) = (Gallery.app w, [])
  ∧ App.totalCards (App.handleAddCard now (Gallery.app w)).1
    = App.totalCards (Gallery.app w)
  ∧ Gallery.submit parse_other now w = w
  ∧ Gallery.step parse_other w (Gallery.Submit now) = w.
Proof.
  intros Hblank. split; [by apply trim_nil |].
  assert (Hadd : App.handleAddCard now (Gallery.app w) = (Gallery.app w, []))
    by (unfold App.handleAddCard; by rewrite Hblank).
  assert (Hsubmit : Gallery.submit parse_other now w = w).
  { unfold Gallery.submit, App.handleSubmit. rewrite Hadd, Hblank. simpl.
    destruct (ErrorBoundary.hasError _); [done |].
    by destruct (App.isAddingCard _). }
  rewrite Hadd. by repeat split.
Qed.

Lemma blank_title_adds_no_card_witness :
  let w := Gallery.run rejecting (Gallery.initialLoad rejecting ∅)
             [Gallery.OpenForm; Gallery.TypeTitle (lit "   ")] in
  trim (App.newCardTitle (Gallery.app w)) = []
  ∧ Gallery.step rejecting w (Gallery.Submit 1700000000000) = w.
Proof.
  cbv zeta. split; [vm_compute; reflexivity |].
  apply (blank_title_adds_no_card rejecting 1700000000000
           (Gallery.run rejecting (Gallery.initialLoad rejecting ∅)
              [Gallery.OpenForm; Gallery.TypeTitle (lit "   ")])).
  vm_compute. reflexivity.
Defined.

(** C4, as amended: with a pending title that does not trim to nothing,
    [handleAddCard] appends one record at the end of the list (the count
    grows by one): its id is [card-] followed by the clock reading, its
    title the trimmed input, its default unliked; the pending input is
    cleared and the form closed.  The id is new to the list whenever
    every listed card is a seed or was added at another clock reading. *)
Theorem add_card_appends_record (now : N) (st : App.State) :
  trim (App.newCardTitle st) ≠ [] →
  let card := {| App.id := generatedId now;
                 App.title := trim (App.newCardTitle st);
                 App.initialLiked := false |} in
  let st' := (App.handleAddCard now st).1 in
  App.cards st' = App.cards st ++ [card]
  ∧ App.totalCards st' = S (App.totalCards st)
  ∧ App.newCardTitle st' = []
  ∧ App.isAddingCard st' = false
  ∧ App.likedCards st' = App.likedCards st
  ∧ ((∀ c, c ∈ App.cards st →
           c ∈ App.initialCards ∨ ∃ t, t ≠ now ∧ App.id c = generatedId t) →
     App.id card ∉ App.id <$> App.cards st).
Proof.
  intros Htitle. cbv zeta. unfold App.handleAddCard.
  destruct (trim (App.newCardTitle st)) as [|c title] eqn:Htrim; [done |].
  simpl. unfold App.totalCards. simpl.
  split; [| split; [| split; [| split; [| split]]]]; try reflexivity.
  - unfold App.newCard. by rewrite Htrim.
  - rewrite length_app. simpl. lia.
  - intros Hlisted Hin.
    apply list_elem_of_fmap in Hin as (c' & Hid & Hc').
    destruct (Hlisted c' Hc') as [Hseed | (t & Ht & Hgen)].
    + by apply (seed_not_generated c' now).
    + apply Ht. apply generatedId_inj. by rewrite <- Hgen.
Qed.

Lemma add_card_appends_record_witness :
  let st := App.setNewCardTitle (lit " Algorithms ")
              (App.openForm App.initialState) in
  let st' := (App.handleAddCard 1700000000000 st).1 in
  trim (App.newCardTitle st) ≠ []
  ∧ App.cards st'
    = App.initialCards
      ++ [ {| App.id := lit "card-1700000000000";
              App.title := lit "Algorithms";
              App.initialLiked := false |} ]
  ∧ App.newCardTitle st' = []
  ∧ lit "card-1700000000000" ∉ App.id <$> App.cards st.
Proof.
  cbv zeta.
  assert (Htitle : trim (App.newCardTitle
            (App.setNewCardTitle (lit " Algorithms ")
               (App.openForm App.initialState))) ≠ [])
    by (vm_compute; discriminate).
  split; [exact Htitle |].
  destruct (add_card_appends_record 1700000000000 _ Htitle)
    as (Hcards & _ & Hinput & _ & _ & Hfresh).
  split; [exact Hcards |]. split; [exact Hinput |].
  apply Hfresh. intros c Hc. by left.
Defined.

(** C4 as stated fails: two adds while the clock shows the same reading
    give the second card the id of the first. *)
Lemma same_clock_reading_repeats_id :
  let st1 := (App.handleAddCard 1700000000000
                (App.setNewCardTitle (lit "Algorithms")
                   (App.openForm App.initialState))).1 in
  let st2 := (App.handleAddCard 1700000000000
                (App.setNewCardTitle (lit "Data Structures")
                   (App.openForm st1))).1 in
  App.id <$> App.cards st2
  = (App.id <$> App.cards st1) ++ [lit "card-1700000000000"]
  ∧ lit "card-1700000000000" ∈ App.id <$> App.cards st1
  ∧ ¬ NoDup (App.id <$> App.cards st2).
Proof.
  cbv zeta.
  assert (Hin : lit "card-1700000000000"
    ∈ App.id <$> App.cards (App.handleAddCard 1700000000000
        (App.setNewCardTitle (lit "Algorithms")
           (App.openForm App.initialState))).1).
  { apply list_elem_of_lookup. exists 4%nat. vm_compute. reflexivity. }
  split; [vm_compute; reflexivity |]. split; [exact Hin |].
  intros Hnd.
  change (App.id <$> App.cards (App.handleAddCard 1700000000000
            (App.setNewCardTitle (lit "Data Structures")
               (App.openForm (App.handleAddCard 1700000000000
                  (App.setNewCardTitle (lit "Algorithms")
                     (App.openForm App.initialState))).1))).1)
    with ((App.id <$> App.cards (App.handleAddCard 1700000000000
             (App.setNewCardTitle (lit "Algorithms")
                (App.openForm App.initialState))).1)
          ++ [lit "card-1700000000000"]) in Hnd.
  apply NoDup_app in Hnd as (_ & Hdisjoint & _).
  apply (Hdisjoint _ Hin). left.
Qed.

Lemma clickDelete_unconfirmed (parse_other : jsstring → parsed)
    (key : jsstring) (w : Gallery.World) :
  Gallery.clickDelete parse_other key false w = w.
Proof.
  unfold Gallery.clickDelete.
  destruct (ErrorBoundary.hasError _); [done |].
  destruct (Gallery.cardOf _ _) as [card|]; [| done].
  destruct (Gallery.mounted w !! key) as [isLiked|] eqn:Hkey; [| done].
  unfold Gallery.afterHandler, Gallery.envOf. simpl.
  rewrite insert_id by done. by destruct w.
Qed.

(** C7: a delete that is not confirmed does nothing.  [handleDelete]
    returns the environment it was given, whatever the callbacks are, so
    the store and the parent's state (its card list) are unchanged and
    [onDelete] was not called; on the page the world after the click is
    the world before it, the like state of the Card included.  Confirmed,
    it removes the Card's entry from the store and hands the id to
    [onDelete]. *)
Theorem unconfirmed_delete_has_no_effect :
  (∀ (P : Type) (props : Card.Props P) (env : Card.Env P),
     Card.handleDelete props false env = env)
  ∧ (∀ parse_other key w, Gallery.clickDelete parse_other key false w = w)
  ∧ (∀ (P : Type) (props : Card.Props P) (env : Card.Env P) i,
       Card.cardId props = Some i → truthy i = true →
       Card.localStorage (Card.handleDelete props true env)
       = delete (Card.storageKey i) (Card.localStorage env)
       ∧ Card.parent (Card.handleDelete props true env)
         = match Card.onDelete props with
           | Some callback => callback (Some i) (Card.parent env)
           | None => Card.parent env
           end).
Proof.
  split; [done |]. split.
  - apply clickDelete_unconfirmed.
  - intros P props env i Hid Hi. unfold Card.handleDelete. simpl.
    by rewrite Hid, Hi.
Qed.

Lemma unconfirmed_delete_has_no_effect_witness :
  let props : Card.Props nat :=
    {| Card.title := lit "Sample"; Card.initialLiked := false;
       Card.cardId := Some (lit "sample"); Card.onLikeChange := None;
       Card.onDelete := Some (λ _ calls, S calls) |} in
  let env : Card.Env nat :=
    {| Card.localStorage := {[ Card.storageKey (lit "sample") := lit "true" ]};
       Card.console := []; Card.parent := 0%nat |} in
  Card.parent (Card.handleDelete props false env) = 0%nat
  ∧ Card.localStorage (Card.handleDelete props false env)
    = Card.localStorage env
  ∧ Card.parent (Card.handleDelete props true env) = 1%nat
  ∧ Card.localStorage (Card.handleDelete props true env)
    = delete (Card.storageKey (lit "sample")) (Card.localStorage env).
Proof.
  cbv zeta. destruct unconfirmed_delete_has_no_effect as (Hno & _ & Hyes).
  split; [by rewrite Hno |]. split; [by rewrite Hno |].
  destruct (Hyes nat
    {| Card.title := lit "Sample"; Card.initialLiked := false;
       Card.cardId := Some (lit "sample"); Card.onLikeChange := None;
       Card.onDelete := Some (λ _ calls, S calls) |}
    {| Card.localStorage := {[ Card.storageKey (lit "sample") := lit "true" ]};
       Card.console := []; Card.parent := 0%nat |}
    (lit "sample") eq_refl eq_refl) as [Hstore Hparent].
  split; [exact Hparent | exact Hstore].
Defined.

(** C5, as amended: a confirmed delete of a listed Card removes from the
    list every record with its id and keeps the others in order, which
    is exactly one record, that of the Card, when the listed ids are
    pairwise distinct; afterwards the id is not in the liked-set and the
    store holds no entry under the Card's key.  [handleCardDelete] with
    an id that is not listed leaves the list as it is. *)
Theorem confirmed_delete_removes_card :
  (∀ parse_other (w : Gallery.World) (card : App.CardRec),
     ErrorBoundary.hasError (Gallery.boundary w) = false →
     card ∈ App.cards (Gallery.app w) →
     is_Some (Gallery.mounted w !! App.id card) →
     truthy (App.id card) = true →
     let w' := Gallery.clickDelete parse_other (App.id card) true w in
     App.cards (Gallery.app w')
     = filter (λ c, Some (App.id c) ≠ Some (App.id card))
         (App.cards (Gallery.app w))
     ∧ (NoDup (App.id <$> App.cards (Gallery.app w)) →
        ∃ before after,
          App.cards (Gallery.app w) = before ++ card :: after
          ∧ App.cards (Gallery.app w') = before ++ after)
     ∧ (Some (App.id card) ∉ App.likedCards (Gallery.app w'))
     ∧ Gallery.localStorage w'
       = delete (Card.storageKey (App.id card)) (Gallery.localStorage w)
     ∧ Gallery.localStorage w' !! Card.storageKey (App.id card) = None)
  ∧ (∀ (i : jsstring) (st : App.State),
       i ∉ App.id <$> App.cards st →
       App.cards (App.handleCardDelete (Some i) st) = App.cards st).
Proof.
  split.
  - intros parse_other w card Hok Hin [isLiked Hmounted] Hid. cbv zeta.
    destruct (cardOf_elem _ _ Hin) as (first & Hfirst & Hsame).
    unfold Gallery.clickDelete.
    rewrite Hok, Hfirst, Hmounted. unfold Gallery.runEffect. simpl.
    rewrite render_app, render_localStorage. simpl.
    rewrite Hsame, Hid.
    split; [done |]. split; [intros Hnd; by apply filter_removes_the_one |].
    split; [| split; [done | apply lookup_delete_eq]].
    intros Hliked. apply elem_of_likedSet in Hliked as (c & Hc & _ & Heq).
    apply list_elem_of_filter in Hc as [Hne _]. by apply Hne.
  - intros i st Hi. unfold App.handleCardDelete. simpl.
    apply filter_keeps_all. intros c Hc Heq. injection Heq as Heq.
    apply Hi. rewrite <- Heq. by apply list_elem_of_fmap_2.
Qed.

Lemma confirmed_delete_removes_card_witness :
  let w := Gallery.run rejecting (Gallery.initialLoad rejecting ∅)
             [Gallery.ClickLike (lit "js-fundamentals")] in
  let w' := Gallery.clickDelete rejecting (lit "js-fundamentals") true w in
  App.id <$> App.cards (Gallery.app w')
  = [lit "react-dev"; lit "css-animations"; lit "web-design"]
  ∧ Some (lit "js-fundamentals") ∈ App.likedCards (Gallery.app w)
  ∧ (Some (lit "js-fundamentals") ∉ App.likedCards (Gallery.app w'))
  ∧ Gallery.localStorage w !! Card.storageKey (lit "js-fundamentals")
    = Some (lit "true")
  ∧ Gallery.localStorage w' !! Card.storageKey (lit "js-fundamentals") = None.
Proof.
  cbv zeta. destruct confirmed_delete_removes_card as [Hlisted _].
  assert (Hin : {| App.id := lit "js-fundamentals";
                   App.title := lit "JavaScript Fundamentals";
                   App.initialLiked := false |}
    ∈ App.cards (Gallery.app (Gallery.run rejecting
        (Gallery.initialLoad rejecting ∅)
        [Gallery.ClickLike (lit "js-fundamentals")]))).
  { apply list_elem_of_lookup. exists 1%nat. vm_compute. reflexivity. }
  assert (Hmounted : is_Some (Gallery.mounted (Gallery.run rejecting
            (Gallery.initialLoad rejecting ∅)
            [Gallery.ClickLike (lit "js-fundamentals")])
          !! lit "js-fundamentals"))
    by (exists true; vm_compute; reflexivity).
  assert (Hok : ErrorBoundary.hasError (Gallery.boundary (Gallery.run rejecting
            (Gallery.initialLoad rejecting ∅)
            [Gallery.ClickLike (lit "js-fundamentals")])) = false)
    by (vm_compute; reflexivity).
  destruct (Hlisted rejecting
              (Gallery.run rejecting (Gallery.initialLoad rejecting ∅)
                 [Gallery.ClickLike (lit "js-fundamentals")])
              {| App.id := lit "js-fundamentals";
                 App.title := lit "JavaScript Fundamentals";
                 App.initialLiked := false |}
              Hok Hin Hmounted eq_refl)
    as (_ & _ & Hset & _ & Hstore).
  split; [vm_compute; reflexivity |].
  split; [| split; [exact Hset | split; [vm_compute; reflexivity | exact Hstore]]].
  vm_compute. reflexivity.
Defined.

(** C5 as stated fails: after two adds at one clock reading the list
    holds two records with the same id, and one confirmed delete removes
    them both. *)
Lemma delete_removes_both_twins :
  let w := Gallery.run rejecting (Gallery.initialLoad rejecting ∅)
             [Gallery.OpenForm; Gallery.TypeTitle (lit "Algorithms");
              Gallery.Submit 1700000000000;
              Gallery.OpenForm; Gallery.TypeTitle (lit "Data Structures");
              Gallery.Submit 1700000000000] in
  let w' := Gallery.step rejecting w
              (Gallery.ClickDelete (lit "card-1700000000000") true) in
  App.title <$> App.cards (Gallery.app w)
  = (App.title <$> App.initialCards)
    ++ [lit "Algorithms"; lit "Data Structures"]
  ∧ App.totalCards (Gallery.app w) = 6%nat
  ∧ App.cards (Gallery.app w') = App.initialCards
  ∧ App.totalCards (Gallery.app w') = 4%nat.
Proof. cbv zeta. repeat split; vm_compute; reflexivity. Qed.

(** ** The Gallery's check against the Card's initializer *)

Lemma savedLiked_absent (storage : Storage) (card : App.CardRec) :
  storage !! Card.storageKey (App.id card) = None →
  App.savedLiked storage card = App.initialLiked card.
Proof. unfold App.savedLiked. intros ->. reflexivity. Qed.

Lemma savedLiked_flag (storage : Storage) (card : App.CardRec) (b : bool) :
  storage !! Card.storageKey (App.id card) = Some (JSON_stringify b) →
  App.savedLiked storage card = b.
Proof. unfold App.savedLiked. intros ->. by destruct b. Qed.

Lemma initialState_savedLiked (parse_other : jsstring → parsed)
    (storage : Storage) (card : App.CardRec) :
  truthy (App.id card) = true →
  (storage !! Card.storageKey (App.id card) = None
   ∨ storage !! Card.storageKey (App.id card) = Some (lit "true")
   ∨ storage !! Card.storageKey (App.id card) = Some (lit "false")) →
  Card.initialState parse_other storage (App.initialLiked card)
    (Some (App.id card))
  = Value (App.savedLiked storage card).
Proof.
  intros Hid Hflag. rewrite initialState_with_id by done.
  destruct Hflag as [H | [H | H]].
  - by rewrite (savedLiked_absent _ _ H), H.
  - by rewrite (savedLiked_flag _ _ true H), H.
  - by rewrite (savedLiked_flag _ _ false H), H.
Qed.

Lemma same_id_same_card (cards : list App.CardRec) (c c' : App.CardRec) :
  NoDup (App.id <$> cards) → c ∈ cards → c' ∈ cards →
  App.id c = App.id c' → c = c'.
Proof.
  induction cards as [|x cards IH]; intros Hnd Hc Hc' Heq.
  - by apply elem_of_nil in Hc.
  - rewrite fmap_cons in Hnd. apply NoDup_cons in Hnd as [Hx Hnd].
    apply elem_of_cons in Hc as [-> | Hc];
      apply elem_of_cons in Hc' as [-> | Hc']; [done | | | by apply IH].
    + exfalso. apply Hx. rewrite Heq. by apply list_elem_of_fmap_2.
    + exfalso. apply Hx. rewrite <- Heq. by apply list_elem_of_fmap_2.
Qed.

(** C9: over a store whose entry under the key of a card is absent or
    one of the texts [true] and [false], the test the effect of the
    Gallery applies to the card, and the state the initializer of its
    Card computes, are the same boolean; so, the listed ids being
    distinct, the card is in the resynchronized liked-set exactly when
    its Card is seeded liked. *)
Theorem gallery_check_agrees_with_card (parse_other : jsstring → parsed)
    (storage : Storage) (card : App.CardRec) :
  truthy (App.id card) = true →
  (storage !! Card.storageKey (App.id card) = None
   ∨ storage !! Card.storageKey (App.id card) = Some (lit "true")
   ∨ storage !! Card.storageKey (App.id card) = Some (lit "false")) →
  Card.initialState parse_other storage (App.initialLiked card)
    (Some (App.id card))
  = Value (App.savedLiked storage card)
  ∧ (∀ cards, card ∈ cards → NoDup (App.id <$> cards) →
       (Some (App.id card) ∈ App.likedSet storage cards
        ↔ Card.initialState parse_other storage (App.initialLiked card)
            (Some (App.id card)) = Value true)).
Proof.
  intros Hid Hflag.
  pose proof (initialState_savedLiked parse_other storage card Hid Hflag) as Hsame.
  split; [exact Hsame |].
  intros cards Hin Hnd. rewrite Hsame, elem_of_likedSet. split.
  - intros (c & Hc & Hliked & Heq). injection Heq as Heq.
    rewrite (same_id_same_card cards card c Hnd Hin Hc Heq). by rewrite Hliked.
  - intros Hliked. injection Hliked as Hliked. by exists card.
Qed.

Lemma gallery_check_agrees_with_card_witness :
  let storage : Storage :=
    {[ Card.storageKey (lit "react-dev") := lit "false" ]} in
  let card := {| App.id := lit "react-dev";
                 App.title := lit "React Development";
                 App.initialLiked := true |} in
  Card.initialState rejecting storage true (Some (lit "react-dev"))
  = Value false
  ∧ App.savedLiked storage card = false
  ∧ (Some (lit "react-dev") ∉ App.likedSet storage App.initialCards).
Proof.
  cbv zeta.
  destruct (gallery_check_agrees_with_card rejecting
    {[ Card.storageKey (lit "react-dev") := lit "false" ]}
    {| App.id := lit "react-dev"; App.title := lit "React Development";
       App.initialLiked := true |} eq_refl
    ltac:(right; right; vm_compute; reflexivity)) as [Hsame Hmember].
  assert (Hsaved : App.savedLiked
            {[ Card.storageKey (lit "react-dev") := lit "false" ]}
            {| App.id := lit "react-dev";
               App.title := lit "React Development";
               App.initialLiked := true |} = false)
    by (vm_compute; reflexivity).
  rewrite Hsaved in Hsame.
  split; [exact Hsame |]. split; [exact Hsaved |].
  intros Hin. apply Hmember in Hin.
  - rewrite Hsame in Hin. discriminate.
  - left.
  - apply seeds_distinct.
Defined.

(** ** Rendering *)

Lemma mountCards_spec (parse_other : jsstring → parsed) (storage : Storage)
    (old : gmap jsstring bool) (cards : list App.CardRec)
    (state : App.CardRec → bool) :
  NoDup (App.id <$> cards) →
  (∀ card, card ∈ cards →
     Gallery.cardState parse_other storage old card = Value (state card)) →
  ∃ states,
    Gallery.mountCards parse_other storage old cards = Gallery.Mounted states
    ∧ (∀ card, card ∈ cards → states !! App.id card = Some (state card))
    ∧ (∀ key, is_Some (states !! key) → key ∈ App.id <$> cards).
Proof.
  induction cards as [|c cards IH]; intros Hnd Hstate; simpl.
  - exists ∅. split; [done |]. split.
    + intros card Hin. by apply elem_of_nil in Hin.
    + intros key [b Hb]. by rewrite lookup_empty in Hb.
  - rewrite fmap_cons in Hnd. apply NoDup_cons in Hnd as [Hc Hnd].
    rewrite (Hstate c) by left.
    destruct (IH Hnd) as (states & -> & Hlookup & Hkeys).
    { intros card Hin. apply Hstate. by right. }
    exists (<[App.id c := state c]> states). split; [done |]. split.
    + intros card Hin. apply elem_of_cons in Hin as [-> | Hin].
      * apply lookup_insert_eq.
      * rewrite lookup_insert_ne; [by apply Hlookup |].
        intros Heq. apply Hc. rewrite Heq. by apply list_elem_of_fmap_2.
    + intros key Hkey. apply lookup_insert_is_Some in Hkey as [<- | [_ Hkey]].
      * left.
      * right. by apply Hkeys.
Qed.

(** A render of a page whose Cards all come up leaves everything but
    the mounted Cards as it was. *)
Lemma render_spec (parse_other : jsstring → parsed) (w : Gallery.World)
    (state : App.CardRec → bool) :
  ErrorBoundary.hasError (Gallery.boundary w) = false →
  NoDup (App.id <$> App.cards (Gallery.app w)) →
  (∀ card, card ∈ App.cards (Gallery.app w) →
     Gallery.cardState parse_other (Gallery.localStorage w)
       (Gallery.mounted w) card = Value (state card)) →
  ∃ states,
    Gallery.render parse_other w
    = {| Gallery.localStorage := Gallery.localStorage w;
         Gallery.console := Gallery.console w;
         Gallery.app := Gallery.app w;
         Gallery.boundary := Gallery.boundary w;
         Gallery.mounted := states |}
    ∧ (∀ card, card ∈ App.cards (Gallery.app w) →
         states !! App.id card = Some (state card))
    ∧ (∀ key, is_Some (states !! key) →
         key ∈ App.id <$> App.cards (Gallery.app w)).
Proof.
  intros Hok Hnd Hstate. unfold Gallery.render. rewrite Hok.
  destruct (mountCards_spec parse_other _ _ _ state Hnd Hstate)
    as (states & -> & Hlookup & Hkeys).
  by exists states.
Qed.

Lemma cardState_mounted (parse_other : jsstring → parsed) (storage : Storage)
    (old : gmap jsstring bool) (card : App.CardRec) (isLiked : bool) :
  old !! App.id card = Some isLiked →
  Gallery.cardState parse_other storage old card = Value isLiked.
Proof. unfold Gallery.cardState. by intros ->. Qed.

(** ** Counting *)

Lemma likedSet_as_list (storage : Storage) (cards : list App.CardRec) :
  App.likedSet storage cards
  = list_to_set ((λ card, Some (App.id card))
                   <$> filter (λ card, App.savedLiked storage card = true) cards).
Proof.
  apply set_eq. intros x.
  rewrite elem_of_likedSet, elem_of_list_to_set, list_elem_of_fmap.
  split.
  - intros (card & Hin & Hliked & ->). exists card. split; [done |].
    by apply list_elem_of_filter.
  - intros (card & -> & Hin). apply list_elem_of_filter in Hin as [Hliked Hin].
    by exists card.
Qed.

Lemma size_likedSet (storage : Storage) (cards : list App.CardRec) :
  NoDup (App.id <$> cards) →
  size (App.likedSet storage cards)
  = length (filter (λ card, App.savedLiked storage card = true) cards).
Proof.
  intros Hnd. rewrite likedSet_as_list, size_list_to_set.
  - by rewrite length_fmap.
  - change (λ card, Some (App.id card)) with (Some ∘ App.id).
    rewrite list_fmap_compose. apply NoDup_fmap_2; [apply _ |].
    eapply sublist_NoDup; [exact Hnd |].
    apply fmap_sublist, sublist_filter.
Qed.

Lemma shown_cards (w : Gallery.World) (cards : list App.CardRec)
    (state : App.CardRec → bool) :
  (∀ card, card ∈ cards → Gallery.mounted w !! App.id card = Some (state card)) →
  length (filter (λ cv, View.status cv = lit "Liked")
            (omap (Gallery.cardView w) cards))
  = length (filter (λ card, state card = true) cards).
Proof.
  induction cards as [|c cards IH]; intros Hstate; [done |].
  simpl. unfold Gallery.cardView at 1. rewrite (Hstate c) by left. simpl.
  rewrite !filter_cons. simpl.
  assert (IH' := IH (λ card Hin, Hstate card (proj2 (elem_of_cons _ _ _) (or_intror Hin)))).
  destruct (state c).
  - rewrite decide_True by done. rewrite decide_True by done.
    simpl. f_equal. exact IH'.
  - rewrite decide_False by discriminate. rewrite decide_False by discriminate.
    exact IH'.
Qed.

(** On a consistent page the statistic is the number of Liked labels. *)
Lemma consistent_count (used : list N) (w : Gallery.World) :
  consistent used w →
  Gallery.view w = View.Content (Gallery.header w) (Gallery.main w)
  ∧ App.likeCount (Gallery.app w) = Gallery.shownLiked (Gallery.view w).
Proof.
  intros [Hok _ Hnd _ Hstates _ Hsync].
  assert (Hview : Gallery.view w
                  = View.Content (Gallery.header w) (Gallery.main w))
    by (unfold Gallery.view, ErrorBoundary.render; by rewrite Hok).
  split; [exact Hview |]. rewrite Hview.
  unfold App.likeCount. rewrite Hsync, size_likedSet by done.
  unfold Gallery.shownLiked, Gallery.main.
  destruct (App.cards (Gallery.app w)) as [|c cards] eqn:Hcards; [done |].
  symmetry. apply shown_cards. exact Hstates.
Qed.

(** ** The page stays consistent *)

Lemma consistent_weaken (used used' : list N) (w : Gallery.World) :
  consistent used w → (∀ t, t ∈ used → t ∈ used') → consistent used' w.
Proof.
  intros [Hok Hflags Hnd Horigin Hstates Hkeys Hsync] Hsub.
  split; try done.
  intros card Hin. destruct (Horigin card Hin) as [Hseed | (t & Ht & Hid)].
  - by left.
  - right. exists t. split; [by apply Hsub | done].
Qed.

Lemma origin_truthy (used : list N) (card : App.CardRec) :
  (card ∈ App.initialCards ∨ ∃ t, t ∈ used ∧ App.id card = generatedId t) →
  truthy (App.id card) = true.
Proof.
  intros [Hseed | (t & _ & ->)]; [by apply seed_truthy | apply generatedId_truthy].
Qed.

Lemma flagsOnly_cases (storage : Storage) (i : jsstring) :
  flagsOnly storage →
  storage !! Card.storageKey i = None
  ∨ storage !! Card.storageKey i = Some (lit "true")
  ∨ storage !! Card.storageKey i = Some (lit "false").
Proof.
  intros Hflags. destruct (storage !! Card.storageKey i) as [text|] eqn:Hi.
  - destruct (Hflags i text Hi) as [-> | ->]; auto.
  - by left.
Qed.

Lemma flagsOnly_insert (storage : Storage) (i : jsstring) (b : bool) :
  flagsOnly storage →
  flagsOnly (<[Card.storageKey i := JSON_stringify b]> storage).
Proof.
  intros Hflags j text. rewrite lookup_insert. case_decide as Hkey.
  - intros [= <-]. destruct b; auto.
  - apply Hflags.
Qed.

Lemma flagsOnly_delete (storage : Storage) (i : jsstring) :
  flagsOnly storage → flagsOnly (delete (Card.storageKey i) storage).
Proof.
  intros Hflags j text. rewrite lookup_delete. case_decide as Hkey.
  - discriminate.
  - apply Hflags.
Qed.

Lemma savedLiked_insert_same (storage : Storage) (card : App.CardRec)
    (b : bool) :
  App.savedLiked
    (<[Card.storageKey (App.id card) := JSON_stringify b]> storage) card = b.
Proof. apply savedLiked_flag, lookup_insert_eq. Qed.

Lemma savedLiked_insert_other (storage : Storage) (key text : jsstring)
    (card : App.CardRec) :
  App.id card ≠ key →
  App.savedLiked (<[Card.storageKey key := text]> storage) card
  = App.savedLiked storage card.
Proof.
  intros Hne. unfold App.savedLiked. rewrite lookup_insert_ne; [done |].
  intros Heq. apply Hne. symmetry. by apply storageKey_inj.
Qed.

Lemma savedLiked_delete_other (storage : Storage) (key : jsstring)
    (card : App.CardRec) :
  App.id card ≠ key →
  App.savedLiked (delete (Card.storageKey key) storage) card
  = App.savedLiked storage card.
Proof.
  intros Hne. unfold App.savedLiked. rewrite lookup_delete_ne; [done |].
  intros Heq. apply Hne. symmetry. by apply storageKey_inj.
Qed.

(** A render in which every listed Card comes up in the state its flag
    gives leaves the page consistent, once the effect has run or if the
    liked-set was already the effect's. *)
Lemma rendered_consistent (parse_other : jsstring → parsed) (used : list N)
    (w : Gallery.World) :
  ErrorBoundary.hasError (Gallery.boundary w) = false →
  flagsOnly (Gallery.localStorage w) →
  NoDup (App.id <$> App.cards (Gallery.app w)) →
  (∀ card, card ∈ App.cards (Gallery.app w) →
     card ∈ App.initialCards ∨ ∃ t, t ∈ used ∧ App.id card = generatedId t) →
  (∀ card, card ∈ App.cards (Gallery.app w) →
     Gallery.cardState parse_other (Gallery.localStorage w)
       (Gallery.mounted w) card
     = Value (App.savedLiked (Gallery.localStorage w) card)) →
  consistent used (Gallery.runEffect (Gallery.render parse_other w))
  ∧ (App.likedCards (Gallery.app w)
     = App.likedSet (Gallery.localStorage w) (App.cards (Gallery.app w)) →
     consistent used (Gallery.render parse_other w)).
Proof.
  intros Hok Hflags Hnd Horigin Hstate.
  destruct (render_spec parse_other w _ Hok Hnd Hstate)
    as (states & -> & Hlookup & Hkeys).
  split; [| intros Hsync]; by split.
Qed.

Lemma likedSet_after_toggle (storage : Storage) (cards : list App.CardRec)
    (card : App.CardRec) (b : bool) :
  NoDup (App.id <$> cards) → card ∈ cards →
  App.likedSet (<[Card.storageKey (App.id card) := JSON_stringify b]> storage)
    cards
  = if b then App.likedSet storage cards ∪ {[ Some (App.id card) ]}
    else App.likedSet storage cards ∖ {[ Some (App.id card) ]}.
Proof.
  intros Hnd Hin. apply set_eq. intros x.
  assert (Hsplit : ∀ c, c ∈ cards → c = card ∨ App.id c ≠ App.id card).
  { intros c Hc. destruct (decide (App.id c = App.id card)) as [Heq | Hne].
    - left. by apply (same_id_same_card cards).
    - by right. }
  destruct b.
  - rewrite elem_of_union, elem_of_singleton, !elem_of_likedSet. split.
    + intros (c & Hc & Hliked & ->). destruct (Hsplit c Hc) as [-> | Hne].
      * by right.
      * left. exists c. by rewrite savedLiked_insert_other in Hliked.
    + intros [(c & Hc & Hliked & ->) | ->].
      * exists c. split; [done |]. split; [| done].
        destruct (Hsplit c Hc) as [-> | Hne].
        -- apply savedLiked_insert_same.
        -- by rewrite savedLiked_insert_other.
      * exists card. split; [done |]. split; [| done].
        apply savedLiked_insert_same.
  - rewrite elem_of_difference, elem_of_singleton, !elem_of_likedSet. split.
    + intros (c & Hc & Hliked & ->). destruct (Hsplit c Hc) as [-> | Hne].
      * by rewrite savedLiked_insert_same in Hliked.
      * split; [| congruence]. exists c.
        by rewrite savedLiked_insert_other in Hliked.
    + intros [(c & Hc & Hliked & ->) Hne]. exists c.
      split; [done |]. split; [| done].
      rewrite savedLiked_insert_other; [done | congruence].
Qed.

Lemma clickLike_consistent (parse_other : jsstring → parsed) (used : list N)
    (key : jsstring) (w : Gallery.World) :
  consistent used w → consistent used (Gallery.clickLike parse_other key w).
Proof.
  intros Hw. pose proof Hw as [Hok Hflags Hnd Horigin Hstates Hkeys Hsync].
  unfold Gallery.clickLike. rewrite Hok.
  destruct (Gallery.cardOf key _) as [card|] eqn:Hcard; [| done].
  destruct (Gallery.mounted w !! key) as [prevLiked|] eqn:Hprev; [| done].
  apply cardOf_Some in Hcard as [Hin <-].
  pose proof (origin_truthy used card (Horigin card Hin)) as Hid.
  unfold Card.toggleLike. simpl. rewrite Hid.
  apply rendered_consistent; simpl; try done.
  - by apply flagsOnly_insert.
  - intros c Hc. apply cardState_mounted.
    destruct (decide (App.id c = App.id card)) as [Heq | Hne].
    + rewrite (same_id_same_card _ c card Hnd Hc Hin Heq).
      by rewrite lookup_insert_eq, savedLiked_insert_same.
    + rewrite lookup_insert_ne by done.
      rewrite savedLiked_insert_other by done. by apply Hstates.
  - rewrite likedSet_after_toggle by done. unfold App.handleLikeChange. simpl.
    by rewrite Hsync.
Qed.

Lemma clickDelete_consistent (parse_other : jsstring → parsed)
    (used : list N) (key : jsstring) (confirmed : bool) (w : Gallery.World) :
  consistent used w →
  consistent used (Gallery.clickDelete parse_other key confirmed w).
Proof.
  intros Hw. destruct confirmed; [| by rewrite clickDelete_unconfirmed].
  pose proof Hw as [Hok Hflags Hnd Horigin Hstates Hkeys Hsync].
  unfold Gallery.clickDelete. rewrite Hok.
  destruct (Gallery.cardOf key _) as [card|] eqn:Hcard; [| done].
  destruct (Gallery.mounted w !! key) as [isLiked|] eqn:Hmounted; [| done].
  apply cardOf_Some in Hcard as [Hin <-].
  pose proof (origin_truthy used card (Horigin card Hin)) as Hid.
  unfold Card.handleDelete. simpl. rewrite Hid.
  apply rendered_consistent; simpl.
  - done.
  - by apply flagsOnly_delete.
  - eapply sublist_NoDup; [exact Hnd |]. apply fmap_sublist, sublist_filter.
  - intros c Hc. apply list_elem_of_filter in Hc as [_ Hc]. by apply Horigin.
  - intros c Hc. apply list_elem_of_filter in Hc as [Hne Hc].
    assert (App.id c ≠ App.id card) by congruence.
    apply cardState_mounted.
    rewrite lookup_insert_ne by done.
    rewrite savedLiked_delete_other by done. by apply Hstates.
Qed.

Lemma submit_consistent (parse_other : jsstring → parsed) (used : list N)
    (now : N) (w : Gallery.World) :
  consistent used w → now ∉ used →
  consistent (now :: used) (Gallery.submit parse_other now w).
Proof.
  intros Hw Hnow.
  assert (Hkeep : consistent (now :: used) w)
    by (apply (consistent_weaken used); [done | intros t Ht; by right]).
  destruct Hw as [Hok Hflags Hnd Horigin Hstates Hkeys Hsync].
  unfold Gallery.submit. rewrite Hok.
  destruct (App.isAddingCard _); [| done]. simpl.
  unfold App.handleSubmit, App.handleAddCard.
  destruct (truthy (trim (App.newCardTitle (Gallery.app w)))); [| done].
  assert (Hfresh : generatedId now ∉ App.id <$> App.cards (Gallery.app w)).
  { intros Hin. apply list_elem_of_fmap in Hin as (c & Hid & Hc).
    destruct (Horigin c Hc) as [Hseed | (t & Ht & Hgen)].
    - by apply (seed_not_generated c now).
    - apply Hnow. rewrite <- Hid in Hgen. apply generatedId_inj in Hgen.
      by rewrite Hgen. }
  apply rendered_consistent; simpl.
  - done.
  - done.
  - rewrite fmap_app. apply NoDup_app. split; [done |]. split.
    + intros x Hx Hnew. apply list_elem_of_singleton in Hnew. by subst x.
    + apply NoDup_singleton.
  - intros c Hc. apply elem_of_app in Hc as [Hc | Hc].
    + destruct (Horigin c Hc) as [Hseed | (t & Ht & Hgen)]; [by left |].
      right. exists t. split; [by right | done].
    + apply list_elem_of_singleton in Hc as ->. right. exists now.
      split; [left | done].
  - intros c Hc. apply elem_of_app in Hc as [Hc | Hc].
    + apply cardState_mounted. by apply Hstates.
    + apply list_elem_of_singleton in Hc as ->.
      unfold Gallery.cardState.
      destruct (Gallery.mounted w !! App.id (App.newCard now _)) eqn:Hm.
      * exfalso. apply Hfresh. apply Hkeys. by eexists.
      * apply initialState_savedLiked; [done |]. by apply flagsOnly_cases.
Qed.

Lemma setApp_consistent (parse_other : jsstring → parsed) (used : list N)
    (f : App.State → App.State) (w : Gallery.World) :
  (∀ st, App.cards (f st) = App.cards st
         ∧ App.likedCards (f st) = App.likedCards st) →
  consistent used w → consistent used (Gallery.setApp parse_other f w).
Proof.
  intros Hf [Hok Hflags Hnd Horigin Hstates Hkeys Hsync].
  destruct (Hf (Gallery.app w)) as [Hcards Hliked].
  unfold Gallery.setApp.
  apply rendered_consistent; simpl; rewrite ?Hcards, ?Hliked; try done.
  intros c Hc. apply cardState_mounted. by apply Hstates.
Qed.

Lemma step_consistent (parse_other : jsstring → parsed) (used : list N)
    (w : Gallery.World) (ev : Gallery.Event) :
  consistent used w →
  (∀ now, ev = Gallery.Submit now → now ∉ used) →
  consistent (Gallery.clockReadings [ev] ++ used) (Gallery.step parse_other w ev).
Proof.
  intros Hw Hnow. destruct ev; simpl.
  - by apply clickLike_consistent.
  - by apply clickDelete_consistent.
  - destruct (_ || _); [done | by apply setApp_consistent].
  - destruct (_ || _); [done | by apply setApp_consistent].
  - destruct (_ || _); [done | by apply setApp_consistent].
  - apply submit_consistent; [done | by apply Hnow].
  - unfold Gallery.tryAgain. by rewrite (rendering _ _ Hw).
Qed.

Lemma run_consistent (parse_other : jsstring → parsed)
    (events : list Gallery.Event) (used : list N) (w : Gallery.World) :
  consistent used w →
  NoDup (Gallery.clockReadings events) →
  (∀ t, t ∈ Gallery.clockReadings events → t ∉ used) →
  ∃ used', consistent used' (Gallery.run parse_other w events).
Proof.
  revert used w. induction events as [|ev events IH]; intros used w Hw Hnd Hnew.
  - by exists used.
  - simpl. apply (IH (Gallery.clockReadings [ev] ++ used)).
    + apply step_consistent; [done |]. intros now ->. apply Hnew. left.
    + destruct ev; simpl in Hnd; try done. by apply NoDup_cons in Hnd as [_ ?].
    + intros t Ht Hin. destruct ev; simpl in *; try by apply (Hnew t).
      apply NoDup_cons in Hnd as [Hfirst _].
      apply elem_of_cons in Hin as [-> | Hin]; [done |].
      apply (Hnew t); [by right | done].
Qed.

Lemma initialLoad_consistent (parse_other : jsstring → parsed)
    (storage : Storage) :
  flagsOnly storage → consistent [] (Gallery.initialLoad parse_other storage).
Proof.
  intros Hflags. unfold Gallery.initialLoad.
  apply rendered_consistent; simpl.
  - done.
  - done.
  - apply seeds_distinct.
  - intros card Hin. by left.
  - intros card Hin. unfold Gallery.cardState. rewrite lookup_empty.
    apply initialState_savedLiked; [by apply seed_truthy |].
    by apply flagsOnly_cases.
Qed.

(** C1, as amended: start from the initial load over a store whose
    entries under card keys are the texts [true] and [false], and let
    any events follow (likes, deletes confirmed or not, opening, typing
    into, cancelling and submitting the add form, Try Again) in which no
    two submits happen at the same clock reading.  Then the page shows
    its content, and the liked-count statistic is the number of Cards
    that show the Liked label. *)
Theorem liked_count_matches_page (parse_other : jsstring → parsed)
    (storage : Storage) (events : list Gallery.Event) :
  flagsOnly storage →
  NoDup (Gallery.clockReadings events) →
  let w := Gallery.run parse_other (Gallery.initialLoad parse_other storage)
             events in
  Gallery.view w = View.Content (Gallery.header w) (Gallery.main w)
  ∧ View.liked (Gallery.header w) = App.likeCount (Gallery.app w)
  ∧ App.likeCount (Gallery.app w) = Gallery.shownLiked (Gallery.view w).
Proof.
  intros Hflags Hclock. cbv zeta.
  destruct (run_consistent parse_other events [] _
              (initialLoad_consistent parse_other storage Hflags) Hclock)
    as [used Hw].
  { intros t _ Hin. by apply elem_of_nil in Hin. }
  destruct (consistent_count used _ Hw) as [Hview Hcount].
  by repeat split.
Qed.

Lemma liked_count_matches_page_witness :
  let storage : Storage :=
    {[ Card.storageKey (lit "js-fundamentals") := lit "true" ]} in
  let events :=
    [Gallery.ClickLike (lit "react-dev");
     Gallery.OpenForm; Gallery.TypeTitle (lit "Algorithms");
     Gallery.Submit 1700000000000;
     Gallery.ClickLike (lit "card-1700000000000");
     Gallery.ClickDelete (lit "css-animations") true;
     Gallery.OpenForm; Gallery.TypeTitle (lit "Data Structures");
     Gallery.Submit 1700000000001] in
  let w := Gallery.run rejecting (Gallery.initialLoad rejecting storage)
             events in
  flagsOnly storage
  ∧ NoDup (Gallery.clockReadings events)
  ∧ App.totalCards (Gallery.app w) = 5%nat
  ∧ App.likeCount (Gallery.app w) = 2%nat
  ∧ App.likeCount (Gallery.app w) = Gallery.shownLiked (Gallery.view w).
Proof.
  cbv zeta.
  assert (Hflags : flagsOnly
            {[ Card.storageKey (lit "js-fundamentals") := lit "true" ]}).
  { intros i text Hi. apply lookup_singleton_Some in Hi as [_ <-]. by left. }
  assert (Hclock : NoDup (Gallery.clockReadings
            [Gallery.ClickLike (lit "react-dev");
             Gallery.OpenForm; Gallery.TypeTitle (lit "Algorithms");
             Gallery.Submit 1700000000000;
             Gallery.ClickLike (lit "card-1700000000000");
             Gallery.ClickDelete (lit "css-animations") true;
             Gallery.OpenForm; Gallery.TypeTitle (lit "Data Structures");
             Gallery.Submit 1700000000001])).
  { apply NoDup_ListNoDup. simpl. repeat constructor; simpl; intuition discriminate. }
  split; [exact Hflags |]. split; [exact Hclock |].
  split; [vm_compute; reflexivity |]. split; [vm_compute; reflexivity |].
  apply (liked_count_matches_page rejecting _ _ Hflags Hclock).
Defined.

(** C1 as stated fails.  Loaded over a store that holds the text [1]
    for the js-fundamentals card, that Card shows Liked (the number is
    truthy) while the effect, which compares with the text [true], leaves
    it out: the statistic is 2 with 3 Cards liked.  And when a second
    card is added at the clock reading of a first one that was liked in
    between, both Cards show Liked under one id: the statistic is 3 with
    4 Cards liked. *)
Lemma liked_count_misses_the_page :
  (let w := Gallery.initialLoad numeralOne
              {[ Card.storageKey (lit "js-fundamentals") := lit "1" ]} in
   App.likeCount (Gallery.app w) = 2%nat
   ∧ Gallery.shownLiked (Gallery.view w) = 3%nat)
  ∧ (let w := Gallery.run rejecting (Gallery.initialLoad rejecting ∅)
                [Gallery.OpenForm; Gallery.TypeTitle (lit "Algorithms");
                 Gallery.Submit 1700000000000;
                 Gallery.ClickLike (lit "card-1700000000000");
                 Gallery.OpenForm; Gallery.TypeTitle (lit "Data Structures");
                 Gallery.Submit 1700000000000] in
     App.likeCount (Gallery.app w) = 3%nat
     ∧ Gallery.shownLiked (Gallery.view w) = 4%nat).
Proof. cbv zeta. repeat split; vm_compute; reflexivity. Qed.

(** ** The error boundary *)

(** Cards that fail to mount fail again when mounted afresh over the
    same store. *)
Lemma mountCards_fails_again (parse_other : jsstring → parsed)
    (storage : Storage) (old : gmap jsstring bool)
    (cards : list App.CardRec) (e : exn) :
  Gallery.mountCards parse_other storage old cards = Gallery.Failed e →
  ∃ e', Gallery.mountCards parse_other storage ∅ cards = Gallery.Failed e'.
Proof.
  revert e. induction cards as [|c cards IH]; intros e; simpl; [done |].
  unfold Gallery.cardState. rewrite lookup_empty.
  destruct (old !! App.id c) as [isLiked|].
  - destruct (Gallery.mountCards parse_other storage old cards)
      as [states | e0] eqn:Hrest; [done |].
    intros _. destruct (IH e0 eq_refl) as [e' ->].
    destruct (Card.initialState _ _ _ _); by eexists.
  - destruct (Card.initialState _ _ _ _) as [isLiked | e0]; [| by eexists].
    destruct (Gallery.mountCards parse_other storage old cards)
      as [states | e1] eqn:Hrest; [done |].
    intros _. destruct (IH e1 eq_refl) as [e' ->]. by eexists.
Qed.

Lemma render_failed (parse_other : jsstring → parsed) (w : Gallery.World)
    (e : exn) :
  ErrorBoundary.hasError (Gallery.boundary w) = false →
  Gallery.mountCards parse_other (Gallery.localStorage w) (Gallery.mounted w)
    (App.cards (Gallery.app w)) = Gallery.Failed e →
  Gallery.render parse_other w
  = {| Gallery.localStorage := Gallery.localStorage w;
       Gallery.console := Gallery.console w ++ [CardError e];
       Gallery.app := Gallery.app w;
       Gallery.boundary := ErrorBoundary.getDerivedStateFromError e;
       Gallery.mounted := ∅ |}.
Proof. intros Hok Hfail. unfold Gallery.render. by rewrite Hok, Hfail. Qed.

(** C8, as amended: a Card that throws while rendering is caught by the
    boundary, which records the error and shows its fallback panel in
    place of everything it wraps, header with the statistics and the add
    form included, not only the card list; the state of [App] and the
    store are untouched and no Card stays mounted.  Try Again clears the
    flag and renders the content again, every Card running its
    initializer anew: the page is back to normal when all of them mount
    over the store as it then is, and shows the panel again otherwise,
    as it does over the store of the failure. *)
Theorem card_failure_is_contained (parse_other : jsstring → parsed)
    (w : Gallery.World) (e : exn) :
  ErrorBoundary.hasError (Gallery.boundary w) = false →
  Gallery.mountCards parse_other (Gallery.localStorage w) (Gallery.mounted w)
    (App.cards (Gallery.app w)) = Gallery.Failed e →
  let failed := Gallery.render parse_other w in
  Gallery.boundary failed = {| ErrorBoundary.hasError := true;
                               ErrorBoundary.error := Some e |}
  ∧ Gallery.view failed = View.ErrorPanel
  ∧ View.headerOf (Gallery.view failed) = None
  ∧ View.mainOf (Gallery.view failed) = None
  ∧ Gallery.app failed = Gallery.app w
  ∧ Gallery.localStorage failed = Gallery.localStorage w
  ∧ Gallery.mounted failed = ∅
  ∧ (∀ storage : Storage,
       let retry := Gallery.tryAgain parse_other
                      (Gallery.withStorage storage failed) in
       Gallery.app retry = Gallery.app w
       ∧ Gallery.localStorage retry = storage
       ∧ match Gallery.mountCards parse_other storage ∅
                 (App.cards (Gallery.app w)) with
         | Gallery.Mounted states =>
             Gallery.boundary retry = {| ErrorBoundary.hasError := false;
                                         ErrorBoundary.error := None |}
             ∧ Gallery.mounted retry = states
             ∧ Gallery.view retry
               = View.Content (Gallery.header retry) (Gallery.main retry)
         | Gallery.Failed e' =>
             Gallery.boundary retry = {| ErrorBoundary.hasError := true;
                                         ErrorBoundary.error := Some e' |}
             ∧ Gallery.view retry = View.ErrorPanel
         end)
  ∧ Gallery.view (Gallery.tryAgain parse_other failed) = View.ErrorPanel.
Proof.
  intros Hok Hfail. cbv zeta. rewrite (render_failed _ _ _ Hok Hfail). simpl.
  repeat (split; [reflexivity |]).
  assert (Hretry : ∀ storage : Storage,
    Gallery.tryAgain parse_other
      (Gallery.withStorage storage
         {| Gallery.localStorage := Gallery.localStorage w;
            Gallery.console := Gallery.console w ++ [CardError e];
            Gallery.app := Gallery.app w;
            Gallery.boundary := ErrorBoundary.getDerivedStateFromError e;
            Gallery.mounted := ∅ |})
    = match Gallery.mountCards parse_other storage ∅
              (App.cards (Gallery.app w)) with
      | Gallery.Mounted states =>
          {| Gallery.localStorage := storage;
             Gallery.console := Gallery.console w ++ [CardError e];
             Gallery.app := Gallery.app w;
             Gallery.boundary := {| ErrorBoundary.hasError := false;
                                    ErrorBoundary.error := None |};
             Gallery.mounted := states |}
      | Gallery.Failed e' =>
          {| Gallery.localStorage := storage;
             Gallery.console :=
               (Gallery.console w ++ [CardError e]) ++ [CardError e'];
             Gallery.app := Gallery.app w;
             Gallery.boundary := ErrorBoundary.getDerivedStateFromError e';
             Gallery.mounted := ∅ |}
      end).
  { intros storage. unfold Gallery.tryAgain, Gallery.render. simpl.
    by destruct (Gallery.mountCards _ _ _ _). }
  split.
  - intros storage. rewrite Hretry.
    by destruct (Gallery.mountCards parse_other storage ∅ _).
  - destruct (mountCards_fails_again _ _ _ _ _ Hfail) as [e' Hagain].
    change {| Gallery.localStorage := Gallery.localStorage w;
              Gallery.console := Gallery.console w ++ [CardError e];
              Gallery.app := Gallery.app w;
              Gallery.boundary := ErrorBoundary.getDerivedStateFromError e;
              Gallery.mounted := ∅ |}
      with (Gallery.withStorage (Gallery.localStorage w)
              {| Gallery.localStorage := Gallery.localStorage w;
                 Gallery.console := Gallery.console w ++ [CardError e];
                 Gallery.app := Gallery.app w;
                 Gallery.boundary := ErrorBoundary.getDerivedStateFromError e;
                 Gallery.mounted := ∅ |}).
    by rewrite Hretry, Hagain.
Qed.

Lemma card_failure_is_contained_witness :
  let storage : Storage :=
    {[ Card.storageKey (lit "card-1700000000000") := lit "{" ]} in
  let before := Gallery.run rejecting (Gallery.initialLoad rejecting storage)
                  [Gallery.OpenForm; Gallery.TypeTitle (lit "Algorithms")] in
  let added :=
    {| Gallery.localStorage := Gallery.localStorage before;
       Gallery.console := Gallery.console before;
       Gallery.app := (App.handleSubmit 1700000000000 (Gallery.app before)).1;
       Gallery.boundary := Gallery.boundary before;
       Gallery.mounted := Gallery.mounted before |} in
  let failed := Gallery.render rejecting added in
  ErrorBoundary.hasError (Gallery.boundary added) = false
  ∧ Gallery.mountCards rejecting (Gallery.localStorage added)
      (Gallery.mounted added) (App.cards (Gallery.app added))
    = Gallery.Failed SyntaxError
  ∧ Gallery.view failed = View.ErrorPanel
  ∧ Gallery.view (Gallery.tryAgain rejecting failed) = View.ErrorPanel
  ∧ View.headerOf
      (Gallery.view (Gallery.tryAgain rejecting (Gallery.withStorage ∅ failed)))
    = Some {| View.total := 5; View.liked := 2; View.notLiked := 3;
              View.addSection := View.AddButton |}.
Proof.
  cbv zeta.
  set (added :=
    {| Gallery.localStorage := Gallery.localStorage
         (Gallery.run rejecting (Gallery.initialLoad rejecting
            {[ Card.storageKey (lit "card-1700000000000") := lit "{" ]})
            [Gallery.OpenForm; Gallery.TypeTitle (lit "Algorithms")]);
       Gallery.console := _; Gallery.app := _; Gallery.boundary := _;
       Gallery.mounted := _ |}).
  assert (Hok : ErrorBoundary.hasError (Gallery.boundary added) = false)
    by (vm_compute; reflexivity).
  assert (Hfail : Gallery.mountCards rejecting (Gallery.localStorage added)
            (Gallery.mounted added) (App.cards (Gallery.app added))
          = Gallery.Failed SyntaxError)
    by (vm_compute; reflexivity).
  destruct (card_failure_is_contained rejecting added SyntaxError Hok Hfail)
    as (_ & Hview & _ & _ & _ & _ & _ & Hretry & Hagain).
  split; [exact Hok |]. split; [exact Hfail |]. split; [exact Hview |].
  split; [exact Hagain |].
  vm_compute. reflexivity.
Defined.

(** C8 as stated fails.  With an unparseable text left in the store
    under the key of the card about to be added, the submit makes the
    new Card throw: the page, which showed its header, now shows the
    fallback panel alone, statistics and add form gone with the card
    list; and Try Again brings the panel back, the text being still
    there. *)
Lemma failure_replaces_the_whole_page :
  let storage : Storage :=
    {[ Card.storageKey (lit "card-1700000000000") := lit "{" ]} in
  let before := Gallery.run rejecting (Gallery.initialLoad rejecting storage)
                  [Gallery.OpenForm; Gallery.TypeTitle (lit "Algorithms")] in
  let failed := Gallery.step rejecting before (Gallery.Submit 1700000000000) in
  View.headerOf (Gallery.view before)
  = Some {| View.total := 4; View.liked := 2; View.notLiked := 2;
            View.addSection := View.AddForm (lit "Algorithms") false |}
  ∧ ErrorBoundary.hasError (Gallery.boundary failed) = true
  ∧ Gallery.view failed = View.ErrorPanel
  ∧ View.headerOf (Gallery.view failed) = None
  ∧ Gallery.view (Gallery.step rejecting failed Gallery.TryAgain)
    = View.ErrorPanel.
Proof. cbv zeta. repeat split; vm_compute; reflexivity. Qed.

(** * Further properties of the code *)

(** ** What a Card leaves in the store *)

Lemma toggleLike_storage {P : Type} (props : Card.Props P) (prevLiked : bool)
    (env : Card.Env P) (i : jsstring) :
  Card.cardId props = Some i → truthy i = true →
  Card.localStorage (Card.toggleLike props prevLiked env).2
  = <[Card.storageKey i := JSON_stringify (negb prevLiked)]>
      (Card.localStorage env).
Proof. intros Hid Hi. unfold Card.toggleLike. simpl. by rewrite Hid, Hi. Qed.

Lemma handleDelete_storage {P : Type} (props : Card.Props P)
    (env : Card.Env P) (i : jsstring) :
  Card.cardId props = Some i → truthy i = true →
  Card.localStorage (Card.handleDelete props true env)
  = delete (Card.storageKey i) (Card.localStorage env).
Proof. intros Hid Hi. unfold Card.handleDelete. simpl. by rewrite Hid, Hi. Qed.

(** X1: what a toggle writes is what the next mount reads.  After a
    toggle of a Card with an id, a Card mounted with that id over the
    resulting store starts in the new like state, whatever its default
    and whatever was stored before. *)
Theorem toggle_is_read_back {P : Type} (parse_other : jsstring → parsed)
    (props : Card.Props P) (prevLiked : bool) (env : Card.Env P)
    (i : jsstring) (initialLiked : bool) :
  Card.cardId props = Some i → truthy i = true →
  Card.initialState parse_other
    (Card.localStorage (Card.toggleLike props prevLiked env).2)
    initialLiked (Some i)
  = Value (Card.toggleLike props prevLiked env).1.
Proof.
  intros Hid Hi.
  rewrite initialState_with_id, (toggleLike_storage _ _ _ i) by done.
  rewrite lookup_insert_eq. apply JSON_parse_stringify.
Qed.

Lemma toggle_is_read_back_witness :
  let props : Card.Props nat :=
    {| Card.title := lit "Sample"; Card.initialLiked := false;
       Card.cardId := Some (lit "sample"); Card.onLikeChange := None;
       Card.onDelete := None |} in
  let env : Card.Env nat :=
    {| Card.localStorage := {[ Card.storageKey (lit "sample") := lit "{" ]};
       Card.console := []; Card.parent := 0%nat |} in
  Card.cardId props = Some (lit "sample")
  ∧ truthy (lit "sample") = true
  ∧ Card.initialState rejecting
      (Card.localStorage (Card.toggleLike props true env).2) true
      (Some (lit "sample"))
    = Value false.
Proof.
  cbv zeta. split; [reflexivity |]. split; [reflexivity |].
  apply (toggle_is_read_back rejecting
    ({| Card.title := lit "Sample"; Card.initialLiked := false;
        Card.cardId := Some (lit "sample"); Card.onLikeChange := None;
        Card.onDelete := None |} : Card.Props nat) true
    {| Card.localStorage := {[ Card.storageKey (lit "sample") := lit "{" ]};
       Card.console := []; Card.parent := 0%nat |}
    (lit "sample") true eq_refl eq_refl).
Defined.

(** X2: a confirmed delete forgets the flag.  A Card mounted afterwards
    with the same id starts from its default, whatever the deleted Card
    had stored. *)
Theorem deleted_card_restarts_from_default {P : Type}
    (parse_other : jsstring → parsed) (props : Card.Props P)
    (env : Card.Env P) (i : jsstring) (initialLiked : bool) :
  Card.cardId props = Some i → truthy i = true →
  Card.initialState parse_other
    (Card.localStorage (Card.handleDelete props true env))
    initialLiked (Some i)
  = Value initialLiked.
Proof.
  intros Hid Hi.
  rewrite initialState_with_id, (handleDelete_storage _ _ i) by done.
  by rewrite lookup_delete_eq.
Qed.

Lemma deleted_card_restarts_from_default_witness :
  let props : Card.Props nat :=
    {| Card.title := lit "Sample"; Card.initialLiked := false;
       Card.cardId := Some (lit "sample"); Card.onLikeChange := None;
       Card.onDelete := None |} in
  let env : Card.Env nat :=
    {| Card.localStorage := {[ Card.storageKey (lit "sample") := lit "true" ]};
       Card.console := []; Card.parent := 0%nat |} in
  Card.initialState rejecting (Card.localStorage env) false
    (Some (lit "sample")) = Value true
  ∧ Card.initialState rejecting
      (Card.localStorage (Card.handleDelete props true env)) false
      (Some (lit "sample")) = Value false.
Proof.
  cbv zeta. split; [vm_compute; reflexivity |].
  apply (deleted_card_restarts_from_default rejecting
    ({| Card.title := lit "Sample"; Card.initialLiked := false;
        Card.cardId := Some (lit "sample"); Card.onLikeChange := None;
        Card.onDelete := None |} : Card.Props nat)
    {| Card.localStorage := {[ Card.storageKey (lit "sample") := lit "true" ]};
       Card.console := []; Card.parent := 0%nat |}
    (lit "sample") false eq_refl eq_refl).
Defined.

(** X3: the handlers of a Card write under its own key only.  Whatever
    the props, a toggle and a delete (confirmed or not) leave every
    entry but the one under the key of the Card's id as it was; so the
    flag of a card with another id, and the state its Card would start
    in, are untouched. *)
Theorem card_writes_its_own_key_only {P : Type}
    (parse_other : jsstring → parsed) (props : Card.Props P)
    (prevLiked confirmed : bool) (env : Card.Env P) :
  (∀ key, (∀ i, Card.cardId props = Some i → key ≠ Card.storageKey i) →
     Card.localStorage (Card.toggleLike props prevLiked env).2 !! key
     = Card.localStorage env !! key
     ∧ Card.localStorage (Card.handleDelete props confirmed env) !! key
       = Card.localStorage env !! key)
  ∧ (∀ other initialLiked, Card.cardId props ≠ Some other →
       Card.initialState parse_other
         (Card.localStorage (Card.toggleLike props prevLiked env).2)
         initialLiked (Some other)
       = Card.initialState parse_other (Card.localStorage env)
           initialLiked (Some other)
       ∧ Card.initialState parse_other
           (Card.localStorage (Card.handleDelete props confirmed env))
           initialLiked (Some other)
         = Card.initialState parse_other (Card.localStorage env)
             initialLiked (Some other)).
Proof.
  assert (Hkeys : ∀ key,
    (∀ i, Card.cardId props = Some i → key ≠ Card.storageKey i) →
    Card.localStorage (Card.toggleLike props prevLiked env).2 !! key
    = Card.localStorage env !! key
    ∧ Card.localStorage (Card.handleDelete props confirmed env) !! key
      = Card.localStorage env !! key).
  { intros key Hkey. unfold Card.toggleLike, Card.handleDelete. simpl.
    destruct (Card.cardId props) as [i|]; [| by destruct confirmed].
    specialize (Hkey i eq_refl).
    destruct (truthy i); [| by destruct confirmed].
    split; [by rewrite lookup_insert_ne |].
    destruct confirmed; [simpl; by rewrite lookup_delete_ne | done]. }
  split; [exact Hkeys |].
  intros other initialLiked Hother. unfold Card.initialState.
  destruct (truthy other); [| done].
  destruct (Hkeys (Card.storageKey other)) as [-> ->]; [| done].
  intros i Hi Heq. apply Hother. rewrite Hi. f_equal.
  symmetry. by apply storageKey_inj.
Qed.

Lemma card_writes_its_own_key_only_witness :
  let props := App.cardProps {| App.id := lit "react-dev";
                                App.title := lit "React Development";
                                App.initialLiked := true |} in
  let env : Card.Env App.State :=
    {| Card.localStorage :=
         {[ Card.storageKey (lit "web-design") := lit "true" ]};
       Card.console := []; Card.parent := App.initialState |} in
  Card.localStorage (Card.toggleLike props true env).2
    !! Card.storageKey (lit "web-design") = Some (lit "true")
  ∧ Card.initialState rejecting
      (Card.localStorage (Card.handleDelete props true env)) false
      (Some (lit "web-design")) = Value true.
Proof.
  cbv zeta.
  destruct (card_writes_its_own_key_only rejecting
    (App.cardProps {| App.id := lit "react-dev";
                      App.title := lit "React Development";
                      App.initialLiked := true |})
    true true
    {| Card.localStorage :=
         {[ Card.storageKey (lit "web-design") := lit "true" ]};
       Card.console := []; Card.parent := App.initialState |})
    as [Hkeys Hother].
  split.
  - destruct (Hkeys (Card.storageKey (lit "web-design"))) as [-> _].
    + intros i [= <-]. vm_compute. discriminate.
    + vm_compute. reflexivity.
  - destruct (Hother (lit "web-design") false) as [_ ->].
    + vm_compute. discriminate.
    + vm_compute. reflexivity.
Defined.

(** ** The liked-set and the statistics *)

(** X4: [handleLikeChange] makes the membership of the reported id the
    reported boolean and leaves every other id, and the card list, as
    they were; so reporting twice is reporting once, and of two reports
    for one id the later one stands. *)
Theorem like_change_sets_membership (cardId : Card.cardId_t) (isLiked : bool)
    (st : App.State) :
  (cardId ∈ App.likedCards (App.handleLikeChange cardId isLiked st)
   ↔ isLiked = true)
  ∧ (∀ other, other ≠ cardId →
       (other ∈ App.likedCards (App.handleLikeChange cardId isLiked st)
        ↔ other ∈ App.likedCards st))
  ∧ App.cards (App.handleLikeChange cardId isLiked st) = App.cards st
  ∧ (∀ earlier,
       App.handleLikeChange cardId isLiked
         (App.handleLikeChange cardId earlier st)
       = App.handleLikeChange cardId isLiked st).
Proof.
  unfold App.handleLikeChange. simpl.
  split; [| split; [| split; [reflexivity |]]].
  - destruct isLiked.
    + rewrite elem_of_union, elem_of_singleton. by split; [| right].
    + rewrite elem_of_difference, elem_of_singleton. split; [tauto | done].
  - intros other Hother. destruct isLiked.
    + rewrite elem_of_union, elem_of_singleton. tauto.
    + rewrite elem_of_difference, elem_of_singleton. tauto.
  - intros earlier. f_equal. apply set_eq. intros x.
    destruct (decide (x = cardId)) as [-> | Hx]; destruct isLiked, earlier;
      rewrite ?elem_of_union, ?elem_of_difference, ?elem_of_union,
        ?elem_of_difference, ?elem_of_singleton; tauto.
Qed.








(** ** Titles and the add form *)

Lemma trimStart_idem (s : jsstring) : trimStart (trimStart s) = trimStart s.
Proof.
  induction s as [|c s IH]; [done |]. simpl.
  destruct (is_space c) eqn:Hc; [done |]. simpl. by rewrite Hc.
Qed.

Lemma trimStart_snoc (l : jsstring) (c : N) :
  is_space c = false → trimStart (l ++ [c]) = trimStart l ++ [c].
Proof.
  intros Hc. induction l as [|x l IH]; simpl.
  - by rewrite Hc.
  - by destruct (is_space x).
Qed.

Lemma trimEnd_cons (c : N) (s : jsstring) :
  is_space c = false → trimEnd (c :: s) = c :: trimEnd s.
Proof.
  intros Hc. unfold trimEnd.
  by rewrite reverse_cons, trimStart_snoc, reverse_app by done.
Qed.

Lemma trimEnd_idem (s : jsstring) : trimEnd (trimEnd s) = trimEnd s.
Proof. unfold trimEnd. by rewrite reverse_involutive, trimStart_idem. Qed.

(** Trimming a trimmed string changes nothing. *)
Lemma trim_idem (s : jsstring) : trim (trim s) = trim s.
Proof.
  unfold trim. destruct (trimStart s) as [|c t] eqn:Hs; [done |].
  assert (Hc : is_space c = false).
  { destruct (is_space c) eqn:Hc; [| done].
    pose proof (trimStart_idem s) as Hidem. rewrite Hs in Hidem.
    simpl in Hidem. rewrite Hc in Hidem.
    apply (f_equal length) in Hidem. simpl in Hidem.
    destruct (trimStart_prefix t) as (pre & Ht & _).
    apply (f_equal length) in Ht. rewrite length_app in Ht. lia. }
  rewrite trimEnd_cons by done. simpl. rewrite Hc.
  rewrite trimEnd_cons by done. by rewrite trimEnd_idem.
Qed.

Lemma newCard_trimmed (now : N) (title : jsstring) :
  truthy (trim title) = true → trimmedTitle (App.newCard now title).
Proof.
  intros Htitle. unfold trimmedTitle. simpl. split; [| apply trim_idem].
  intros Hnil. by rewrite Hnil in Htitle.
Qed.

Lemma seeds_trimmed : Forall trimmedTitle App.initialCards.
Proof.
  apply Forall_forall. intros card Hin.
  each_seed Hin; (split; [discriminate | vm_compute; reflexivity]).
Qed.

(** How one event changes the card list: not at all, by removing the
    records of one id, or by appending the record of an add. *)
Lemma step_cards (parse_other : jsstring → parsed) (w : Gallery.World)
    (ev : Gallery.Event) :
  App.cards (Gallery.app (Gallery.step parse_other w ev))
  = App.cards (Gallery.app w)
  ∨ (∃ key, ev = Gallery.ClickDelete key true
        ∧ App.cards (Gallery.app (Gallery.step parse_other w ev))
          = filter (λ c, Some (App.id c) ≠ Some key)
              (App.cards (Gallery.app w)))
  ∨ (∃ now, ev = Gallery.Submit now
        ∧ truthy (trim (App.newCardTitle (Gallery.app w))) = true
        ∧ App.cards (Gallery.app (Gallery.step parse_other w ev))
          = App.cards (Gallery.app w)
            ++ [App.newCard now (App.newCardTitle (Gallery.app w))]).
Proof.
  destruct ev; simpl.
  - left. unfold Gallery.clickLike.
    destruct (ErrorBoundary.hasError _); [done |].
    destruct (Gallery.cardOf key _); [| done].
    destruct (Gallery.mounted w !! key); [| done].
    simpl. by rewrite render_app.
  - destruct confirmed; [| left; by rewrite clickDelete_unconfirmed].
    unfold Gallery.clickDelete.
    destruct (ErrorBoundary.hasError _); [by left |].
    destruct (Gallery.cardOf key _) as [card|] eqn:Hcard; [| by left].
    destruct (Gallery.mounted w !! key); [| by left].
    apply cardOf_Some in Hcard as [_ <-].
    right. left. exists (App.id card). split; [done |].
    simpl. by rewrite render_app.
  - left. destruct (_ || _); [done |]. unfold Gallery.setApp.
    by rewrite render_app.
  - left. destruct (_ || _); [done |]. unfold Gallery.setApp.
    by rewrite render_app.
  - left. destruct (_ || _); [done |]. unfold Gallery.setApp.
    by rewrite render_app.
  - unfold Gallery.submit.
    destruct (ErrorBoundary.hasError _); [by left |].
    destruct (negb _); [by left |].
    unfold App.handleSubmit, App.handleAddCard.
    destruct (truthy _) eqn:Htitle; [| by left].
    right. right. exists now. split; [done |]. split; [done |].
    simpl. by rewrite render_app.
  - left. unfold Gallery.tryAgain.
    destruct (ErrorBoundary.hasError _); [| done]. by rewrite render_app.
Qed.

Lemma initialLoad_cards (parse_other : jsstring → parsed) (storage : Storage) :
  App.cards (Gallery.app (Gallery.initialLoad parse_other storage))
  = App.initialCards.
Proof. unfold Gallery.initialLoad. simpl. by rewrite render_app. Qed.

(** X6: every card the Gallery ever lists has a title that is not empty
    and has no white space at either end, whatever was typed into the
    form, whatever the store holds and whatever events took place. *)
Theorem listed_titles_are_trimmed (parse_other : jsstring → parsed)
    (storage : Storage) (events : list Gallery.Event) :
  Forall trimmedTitle
    (App.cards (Gallery.app
       (Gallery.run parse_other (Gallery.initialLoad parse_other storage)
          events))).
Proof.
  assert (Hrun : ∀ w, Forall trimmedTitle (App.cards (Gallery.app w)) →
    Forall trimmedTitle
      (App.cards (Gallery.app (Gallery.run parse_other w events)))).
  { induction events as [|ev events IH]; intros w Hw; [done |].
    simpl. apply IH.
    destruct (step_cards parse_other w ev)
      as [-> | [(key & _ & ->) | (now & _ & Htitle & ->)]].
    - done.
    - apply Forall_forall. intros c Hc.
      apply list_elem_of_filter in Hc as [_ Hc].
      by apply (proj1 (Forall_forall _ _) Hw).
    - apply Forall_app. split; [done |].
      apply Forall_singleton. by apply newCard_trimmed. }
  apply Hrun. rewrite initialLoad_cards. apply seeds_trimmed.
Qed.

Lemma step_form_blank (parse_other : jsstring → parsed) (w : Gallery.World)
    (ev : Gallery.Event) :
  (App.isAddingCard (Gallery.app w) = false →
   App.newCardTitle (Gallery.app w) = []) →
  App.isAddingCard (Gallery.app (Gallery.step parse_other w ev)) = false →
  App.newCardTitle (Gallery.app (Gallery.step parse_other w ev)) = [].
Proof.
  intros Hw. destruct ev; simpl.
  - unfold Gallery.clickLike.
    destruct (ErrorBoundary.hasError _); [exact Hw |].
    destruct (Gallery.cardOf key _); [| exact Hw].
    destruct (Gallery.mounted w !! key); [| exact Hw].
    simpl. by rewrite render_app.
  - destruct confirmed; [| by rewrite clickDelete_unconfirmed].
    unfold Gallery.clickDelete.
    destruct (ErrorBoundary.hasError _); [exact Hw |].
    destruct (Gallery.cardOf key _); [| exact Hw].
    destruct (Gallery.mounted w !! key); [| exact Hw].
    simpl. by rewrite render_app.
  - destruct (_ || _); [exact Hw |]. unfold Gallery.setApp.
    rewrite render_app. simpl. discriminate.
  - destruct (ErrorBoundary.hasError _); [exact Hw |].
    destruct (App.isAddingCard (Gallery.app w)) eqn:Hform;
      [| simpl; intros _; by apply Hw].
    simpl. unfold Gallery.setApp. rewrite render_app. simpl.
    rewrite Hform. discriminate.
  - destruct (_ || _); [exact Hw |]. unfold Gallery.setApp.
    by rewrite render_app.
  - unfold Gallery.submit.
    destruct (ErrorBoundary.hasError _); [exact Hw |].
    destruct (negb _); [exact Hw |].
    unfold App.handleSubmit, App.handleAddCard.
    destruct (truthy _); [| exact Hw]. simpl. by rewrite render_app.
  - unfold Gallery.tryAgain.
    destruct (ErrorBoundary.hasError _); [| exact Hw]. by rewrite render_app.
Qed.

Lemma run_form_blank (parse_other : jsstring → parsed) (storage : Storage)
    (events : list Gallery.Event) :
  App.isAddingCard (Gallery.app
    (Gallery.run parse_other (Gallery.initialLoad parse_other storage)
       events)) = false →
  App.newCardTitle (Gallery.app
    (Gallery.run parse_other (Gallery.initialLoad parse_other storage)
       events)) = [].
Proof.
  assert (Hrun : ∀ w,
    (App.isAddingCard (Gallery.app w) = false →
     App.newCardTitle (Gallery.app w) = []) →
    App.isAddingCard (Gallery.app (Gallery.run parse_other w events)) = false →
    App.newCardTitle (Gallery.app (Gallery.run parse_other w events)) = []).
  { induction events as [|ev events IH]; intros w Hw; [done |].
    simpl. by apply IH, step_form_blank. }
  apply Hrun. unfold Gallery.initialLoad. simpl. by rewrite render_app.
Qed.

(** X7: the add form always opens blank.  After any events, while the
    form is closed the pending title is empty, so the Add New Card
    button brings up a form with an empty input and a disabled Create
    button: what was typed before a cancel or a successful add is gone. *)
Theorem form_opens_blank (parse_other : jsstring → parsed)
    (storage : Storage) (events : list Gallery.Event) :
  let w := Gallery.run parse_other (Gallery.initialLoad parse_other storage)
             events in
  App.isAddingCard (Gallery.app w) = false →
  App.newCardTitle (Gallery.app w) = []
  ∧ (ErrorBoundary.hasError (Gallery.boundary w) = false →
     View.addSection (Gallery.header (Gallery.step parse_other w Gallery.OpenForm))
     = View.AddForm [] true).
Proof.
  cbv zeta. intros Hclosed.
  pose proof (run_form_blank parse_other storage events Hclosed) as Hblank.
  split; [exact Hblank |]. intros Hok. simpl. rewrite Hok, Hclosed. simpl.
  unfold Gallery.setApp, Gallery.header. rewrite render_app. simpl.
  by rewrite Hblank.
Qed.

Lemma form_opens_blank_witness :
  let w := Gallery.run rejecting (Gallery.initialLoad rejecting ∅)
             [Gallery.OpenForm; Gallery.TypeTitle (lit "Algo");
              Gallery.CancelAdd] in
  App.isAddingCard (Gallery.app w) = false
  ∧ App.newCardTitle (Gallery.app w) = []
  ∧ View.addSection (Gallery.header (Gallery.step rejecting w Gallery.OpenForm))
    = View.AddForm [] true.
Proof.
  cbv zeta.
  assert (Hclosed : App.isAddingCard (Gallery.app
            (Gallery.run rejecting (Gallery.initialLoad rejecting ∅)
               [Gallery.OpenForm; Gallery.TypeTitle (lit "Algo");
                Gallery.CancelAdd])) = false)
    by (vm_compute; reflexivity).
  destruct (form_opens_blank rejecting ∅
              [Gallery.OpenForm; Gallery.TypeTitle (lit "Algo");
               Gallery.CancelAdd] Hclosed) as [Hblank Hopen].
  split; [exact Hclosed |]. split; [exact Hblank |].
  apply Hopen. vm_compute. reflexivity.
Defined.

(** X8: the Create button is enabled exactly when a submit adds a card.
    With the form open on a page that renders, a disabled button means
    that a submit changes nothing at all, and an enabled one that it
    appends the card of the typed title and closes the form. *)
Theorem create_enabled_iff_submit_adds (parse_other : jsstring → parsed)
    (w : Gallery.World) (now : N) :
  ErrorBoundary.hasError (Gallery.boundary w) = false →
  App.isAddingCard (Gallery.app w) = true →
  ∃ createDisabled,
    View.addSection (Gallery.header w)
    = View.AddForm (App.newCardTitle (Gallery.app w)) createDisabled
    ∧ (createDisabled = true →
       Gallery.step parse_other w (Gallery.Submit now) = w)
    ∧ (createDisabled = false →
       let w' := Gallery.step parse_other w (Gallery.Submit now) in
       App.cards (Gallery.app w')
       = App.cards (Gallery.app w)
         ++ [App.newCard now (App.newCardTitle (Gallery.app w))]
       ∧ View.addSection (Gallery.header w') = View.AddButton).
Proof.
  intros Hok Hform.
  exists (negb (truthy (trim (App.newCardTitle (Gallery.app w))))).
  unfold Gallery.header at 1. simpl. rewrite Hform.
  split; [reflexivity |].
  unfold Gallery.submit, App.handleSubmit, App.handleAddCard.
  rewrite Hok, Hform. simpl.
  destruct (truthy (trim (App.newCardTitle (Gallery.app w)))); simpl.
  - split; [discriminate |]. intros _.
    unfold Gallery.header. simpl. by rewrite render_app.
  - split; [done | discriminate].
Qed.

Lemma create_enabled_iff_submit_adds_witness :
  let w := Gallery.run rejecting (Gallery.initialLoad rejecting ∅)
             [Gallery.OpenForm; Gallery.TypeTitle (lit " x ")] in
  let w' := Gallery.step rejecting w (Gallery.Submit 1700000000000) in
  View.addSection (Gallery.header w) = View.AddForm (lit " x ") false
  ∧ App.title <$> App.cards (Gallery.app w')
    = (App.title <$> App.initialCards) ++ [lit "x"].
Proof.
  cbv zeta.
  assert (Hok : ErrorBoundary.hasError (Gallery.boundary
            (Gallery.run rejecting (Gallery.initialLoad rejecting ∅)
               [Gallery.OpenForm; Gallery.TypeTitle (lit " x ")])) = false)
    by (vm_compute; reflexivity).
  assert (Hform : App.isAddingCard (Gallery.app
            (Gallery.run rejecting (Gallery.initialLoad rejecting ∅)
               [Gallery.OpenForm; Gallery.TypeTitle (lit " x ")])) = true)
    by (vm_compute; reflexivity).
  destruct (create_enabled_iff_submit_adds rejecting _ 1700000000000 Hok Hform)
    as (createDisabled & Hsection & _ & Hadds).
  assert (Hshown : View.addSection (Gallery.header
            (Gallery.run rejecting (Gallery.initialLoad rejecting ∅)
               [Gallery.OpenForm; Gallery.TypeTitle (lit " x ")]))
          = View.AddForm (lit " x ") false)
    by (vm_compute; reflexivity).
  split; [exact Hshown |].
  rewrite Hshown in Hsection.
  assert (Henabled : createDisabled = false) by congruence.
  destruct (Hadds Henabled) as [-> _]. vm_compute. reflexivity.
Defined.

(** ** What the page writes, and when it is stuck *)

Lemma step_storage_frame (parse_other : jsstring → parsed)
    (w : Gallery.World) (ev : Gallery.Event) (entry : jsstring) :
  (∀ i, ev = Gallery.ClickLike i ∨ ev = Gallery.ClickDelete i true →
        entry ≠ Card.storageKey i) →
  Gallery.localStorage (Gallery.step parse_other w ev) !! entry
  = Gallery.localStorage w !! entry.
Proof.
  intros Hentry. destruct ev; simpl.
  - unfold Gallery.clickLike.
    destruct (ErrorBoundary.hasError _); [done |].
    destruct (Gallery.cardOf key _) as [card|] eqn:Hcard; [| done].
    destruct (Gallery.mounted w !! key); [| done].
    apply cardOf_Some in Hcard as [_ <-].
    unfold Card.toggleLike. simpl. rewrite render_localStorage. simpl.
    destruct (truthy (App.id card)); [| done].
    apply lookup_insert_ne. intros Heq. apply (Hentry (App.id card)); auto.
  - destruct confirmed; [| by rewrite clickDelete_unconfirmed].
    unfold Gallery.clickDelete.
    destruct (ErrorBoundary.hasError _); [done |].
    destruct (Gallery.cardOf key _) as [card|] eqn:Hcard; [| done].
    destruct (Gallery.mounted w !! key); [| done].
    apply cardOf_Some in Hcard as [_ <-].
    unfold Card.handleDelete. simpl. rewrite render_localStorage. simpl.
    destruct (truthy (App.id card)); [| done].
    apply lookup_delete_ne. intros Heq. apply (Hentry (App.id card)); auto.
  - destruct (_ || _); [done |]. unfold Gallery.setApp.
    by rewrite render_localStorage.
  - destruct (_ || _); [done |]. unfold Gallery.setApp.
    by rewrite render_localStorage.
  - destruct (_ || _); [done |]. unfold Gallery.setApp.
    by rewrite render_localStorage.
  - unfold Gallery.submit.
    destruct (ErrorBoundary.hasError _); [done |].
    destruct (negb _); [done |].
    destruct (App.handleSubmit now (Gallery.app w)) as [app1 logged].
    destruct (truthy _); [| done]. simpl. by rewrite render_localStorage.
  - unfold Gallery.tryAgain.
    destruct (ErrorBoundary.hasError _); [| done].
    by rewrite render_localStorage.
Qed.

(** X9: the page writes the store through the Cards alone.  An event
    changes no entry other than the flag of the card it likes or (once
    confirmed) deletes: adding a card, typing, opening and cancelling
    the form and Try Again write nothing, and neither does the initial
    load. *)
Theorem store_is_written_by_like_and_delete_only
    (parse_other : jsstring → parsed) (w : Gallery.World)
    (ev : Gallery.Event) (entry : jsstring) :
  (∀ i, ev = Gallery.ClickLike i ∨ ev = Gallery.ClickDelete i true →
        entry ≠ Card.storageKey i) →
  Gallery.localStorage (Gallery.step parse_other w ev) !! entry
  = Gallery.localStorage w !! entry
  ∧ ∀ storage,
      Gallery.localStorage (Gallery.initialLoad parse_other storage) = storage.
Proof.
  intros Hentry. split; [by apply step_storage_frame |].
  intros storage. unfold Gallery.initialLoad. simpl.
  by rewrite render_localStorage.
Qed.

Lemma store_is_written_by_like_and_delete_only_witness :
  let storage : Storage :=
    {[ Card.storageKey (lit "card-1700000000000") := lit "true" ]} in
  let w := Gallery.initialLoad rejecting storage in
  Gallery.localStorage
    (Gallery.step rejecting w (Gallery.ClickLike (lit "react-dev")))
    !! Card.storageKey (lit "card-1700000000000") = Some (lit "true")
  ∧ Gallery.localStorage w = storage.
Proof.
  cbv zeta.
  destruct (store_is_written_by_like_and_delete_only rejecting
    (Gallery.initialLoad rejecting
       {[ Card.storageKey (lit "card-1700000000000") := lit "true" ]})
    (Gallery.ClickLike (lit "react-dev"))
    (Card.storageKey (lit "card-1700000000000"))) as [Hkept Hload].
  - intros i [[= <-] | [=]]. vm_compute. discriminate.
  - split; [| apply Hload]. rewrite Hkept. vm_compute. reflexivity.
Defined.

Lemma stuck_step (parse_other : jsstring → parsed) (w : Gallery.World)
    (ev : Gallery.Event) (e : exn) :
  ErrorBoundary.hasError (Gallery.boundary w) = true →
  Gallery.mounted w = ∅ →
  Gallery.mountCards parse_other (Gallery.localStorage w) ∅
    (App.cards (Gallery.app w)) = Gallery.Failed e →
  let w' := Gallery.step parse_other w ev in
  ErrorBoundary.hasError (Gallery.boundary w') = true
  ∧ Gallery.mounted w' = ∅
  ∧ Gallery.app w' = Gallery.app w
  ∧ Gallery.localStorage w' = Gallery.localStorage w.
Proof.
  intros Herr Hnone Hfail. cbv zeta.
  destruct ev; simpl;
    unfold Gallery.clickLike, Gallery.clickDelete, Gallery.submit;
    rewrite ?Herr; simpl; try done.
  unfold Gallery.tryAgain, Gallery.render. rewrite Herr. simpl.
  by rewrite Hnone, Hfail.
Qed.

(** X10: a Card that fails to render leaves the page stuck on the
    fallback panel.  From then on no sequence of events, Try Again
    included, brings the content back or changes the card list, the
    liked-set or the store: the text that cannot be parsed stays where
    it is, and only a change of the store from outside the page (or a
    reload over another store) can help. *)
Theorem failed_page_stays_failed (parse_other : jsstring → parsed)
    (w : Gallery.World) (e : exn) (events : list Gallery.Event) :
  ErrorBoundary.hasError (Gallery.boundary w) = false →
  Gallery.mountCards parse_other (Gallery.localStorage w) (Gallery.mounted w)
    (App.cards (Gallery.app w)) = Gallery.Failed e →
  let w' := Gallery.run parse_other (Gallery.render parse_other w) events in
  Gallery.view w' = View.ErrorPanel
  ∧ Gallery.app w' = Gallery.app w
  ∧ Gallery.localStorage w' = Gallery.localStorage w.
Proof.
  intros Hok Hfail. cbv zeta. rewrite (render_failed _ _ _ Hok Hfail).
  destruct (mountCards_fails_again _ _ _ _ _ Hfail) as [e' Hagain].
  assert (Hrun : ∀ w0,
    ErrorBoundary.hasError (Gallery.boundary w0) = true →
    Gallery.mounted w0 = ∅ →
    Gallery.app w0 = Gallery.app w →
    Gallery.localStorage w0 = Gallery.localStorage w →
    ErrorBoundary.hasError
      (Gallery.boundary (Gallery.run parse_other w0 events)) = true
    ∧ Gallery.app (Gallery.run parse_other w0 events) = Gallery.app w
    ∧ Gallery.localStorage (Gallery.run parse_other w0 events)
      = Gallery.localStorage w).
  { induction events as [|ev events IH]; intros w0 Herr Hnone Happ Hstore;
      [done |].
    simpl. destruct (stuck_step parse_other w0 ev e' Herr Hnone)
      as (Herr' & Hnone' & Happ' & Hstore').
    { by rewrite Hstore, Happ. }
    apply IH; congruence. }
  match goal with
  | |- context [Gallery.run _ ?w0 _] =>
      destruct (Hrun w0 eq_refl eq_refl eq_refl eq_refl)
        as (Herr & Happ & Hstore)
  end.
  split; [| done]. unfold Gallery.view, ErrorBoundary.render. by rewrite Herr.
Qed.

Lemma failed_page_stays_failed_witness :
  let storage : Storage :=
    {[ Card.storageKey (lit "web-design") := lit "liked" ]} in
  let w := {| Gallery.localStorage := storage; Gallery.console := [];
              Gallery.app := App.initialState;
              Gallery.boundary := ErrorBoundary.initial;
              Gallery.mounted := ∅ |} in
  ErrorBoundary.hasError (Gallery.boundary w) = false
  ∧ Gallery.mountCards rejecting storage ∅ App.initialCards
    = Gallery.Failed SyntaxError
  ∧ Gallery.view
      (Gallery.run rejecting (Gallery.render rejecting w)
         [Gallery.TryAgain; Gallery.OpenForm;
          Gallery.ClickLike (lit "react-dev"); Gallery.TryAgain])
    = View.ErrorPanel.
Proof.
  cbv zeta.
  assert (Hfail : Gallery.mountCards rejecting
            {[ Card.storageKey (lit "web-design") := lit "liked" ]} ∅
            App.initialCards = Gallery.Failed SyntaxError)
    by (vm_compute; reflexivity).
  split; [reflexivity |]. split; [exact Hfail |].
  apply (failed_page_stays_failed rejecting
    {| Gallery.localStorage :=
         {[ Card.storageKey (lit "web-design") := lit "liked" ]};
       Gallery.console := []; Gallery.app := App.initialState;
       Gallery.boundary := ErrorBoundary.initial; Gallery.mounted := ∅ |}
    SyntaxError _ eq_refl Hfail).
Defined.

(** ** Pages reached from a store of flags *)

Lemma reached_consistent (parse_other : jsstring → parsed) (storage : Storage)
    (events : list Gallery.Event) :
  flagsOnly storage → NoDup (Gallery.clockReadings events) →
  ∃ used, consistent used
            (Gallery.run parse_other (Gallery.initialLoad parse_other storage)
               events).
Proof.
  intros Hflags Hclock.
  apply (run_consistent parse_other events []);
    [by apply initialLoad_consistent | done |].
  intros t _ Hin. by apply elem_of_nil in Hin.
Qed.

Lemma consistent_settled (used : list N) (w : Gallery.World) :
  consistent used w → settled w.
Proof.
  intros [Hok _ Hnd _ Hstates Hkeys _]. repeat split; try done.
  intros card Hin. rewrite (Hstates card Hin). by eexists.
Qed.

(** Rendering a settled page again changes nothing. *)
Lemma render_settled (parse_other : jsstring → parsed) (w : Gallery.World) :
  settled w → Gallery.render parse_other w = w.
Proof.
  intros (Hok & Hnd & Hmounted & Hkeys).
  destruct (render_spec parse_other w
              (λ card, default false (Gallery.mounted w !! App.id card))
              Hok Hnd) as (states & -> & Hlookup & Hnew).
  { intros card Hin. destruct (Hmounted card Hin) as [b Hb].
    rewrite Hb. by apply cardState_mounted. }
  assert (Hsame : states = Gallery.mounted w).
  { apply map_eq. intros key.
    destruct (decide (key ∈ App.id <$> App.cards (Gallery.app w))) as [Hin | Hout].
    - apply list_elem_of_fmap in Hin as (card & -> & Hin).
      rewrite (Hlookup card Hin).
      destruct (Hmounted card Hin) as [b Hb]. by rewrite Hb.
    - destruct (states !! key) eqn:Hs.
      { exfalso. apply Hout, Hnew. by eexists. }
      destruct (Gallery.mounted w !! key) eqn:Hm; [| done].
      exfalso. apply Hout, Hkeys. by eexists. }
  rewrite Hsame. by destruct w.
Qed.

Lemma setApp_settled (parse_other : jsstring → parsed)
    (f : App.State → App.State) (w : Gallery.World) :
  settled w → App.cards (f (Gallery.app w)) = App.cards (Gallery.app w) →
  Gallery.setApp parse_other f w
  = {| Gallery.localStorage := Gallery.localStorage w;
       Gallery.console := Gallery.console w;
       Gallery.app := f (Gallery.app w);
       Gallery.boundary := Gallery.boundary w;
       Gallery.mounted := Gallery.mounted w |}.
Proof.
  intros Hw Hcards. unfold Gallery.setApp. apply render_settled.
  unfold settled in *. simpl. by rewrite Hcards.
Qed.

(** X11: opening the form, typing and cancelling is a round trip.  On
    a page reached from a store of flags, with the form closed, the
    three events leave the page exactly as it was: no card, no store
    entry, no pending text and no console line is left behind. *)
Theorem open_type_cancel_changes_nothing (parse_other : jsstring → parsed)
    (storage : Storage) (events : list Gallery.Event) (value : jsstring) :
  flagsOnly storage → NoDup (Gallery.clockReadings events) →
  let w := Gallery.run parse_other (Gallery.initialLoad parse_other storage)
             events in
  App.isAddingCard (Gallery.app w) = false →
  Gallery.run parse_other w
    [Gallery.OpenForm; Gallery.TypeTitle value; Gallery.CancelAdd] = w.
Proof.
  intros Hflags Hclock. cbv zeta. intros Hclosed.
  pose proof (run_form_blank parse_other storage events Hclosed) as Hblank.
  destruct (reached_consistent parse_other storage events Hflags Hclock)
    as [used Hw].
  apply consistent_settled in Hw.
  set (w := Gallery.run parse_other
              (Gallery.initialLoad parse_other storage) events) in *.
  pose proof Hw as (Hok & _).
  simpl. rewrite Hok, Hclosed. simpl.
  rewrite (setApp_settled parse_other App.openForm w Hw eq_refl). simpl.
  rewrite Hok. simpl.
  set (w1 := {| Gallery.localStorage := Gallery.localStorage w;
                Gallery.console := Gallery.console w;
                Gallery.app := App.openForm (Gallery.app w);
                Gallery.boundary := Gallery.boundary w;
                Gallery.mounted := Gallery.mounted w |}).
  assert (Hw1 : settled w1) by exact Hw.
  rewrite (setApp_settled parse_other (App.setNewCardTitle value) w1 Hw1 eq_refl).
  simpl. rewrite Hok. simpl.
  set (w2 := {| Gallery.localStorage := Gallery.localStorage w;
                Gallery.console := Gallery.console w;
                Gallery.app := App.setNewCardTitle value (App.openForm (Gallery.app w));
                Gallery.boundary := Gallery.boundary w;
                Gallery.mounted := Gallery.mounted w |}).
  assert (Hw2 : settled w2) by exact Hw.
  rewrite (setApp_settled parse_other App.cancelAdd w2 Hw2 eq_refl).
  unfold w2, App.cancelAdd. simpl.
  destruct w as [st co [cs liked pending adding] bo mo]. simpl in *.
  by rewrite Hclosed, Hblank.
Qed.

Lemma open_type_cancel_changes_nothing_witness :
  let storage : Storage :=
    {[ Card.storageKey (lit "web-design") := lit "true" ]} in
  let events := [Gallery.ClickLike (lit "css-animations");
                 Gallery.OpenForm; Gallery.TypeTitle (lit "Algorithms");
                 Gallery.Submit 1700000000000] in
  let w := Gallery.run rejecting (Gallery.initialLoad rejecting storage)
             events in
  App.isAddingCard (Gallery.app w) = false
  ∧ Gallery.run rejecting w
      [Gallery.OpenForm; Gallery.TypeTitle (lit "Data"); Gallery.CancelAdd]
    = w.
Proof.
  cbv zeta.
  assert (Hflags : flagsOnly
            {[ Card.storageKey (lit "web-design") := lit "true" ]}).
  { intros i text Hi. apply lookup_singleton_Some in Hi as [_ <-]. by left. }
  assert (Hclock : NoDup (Gallery.clockReadings
            [Gallery.ClickLike (lit "css-animations");
             Gallery.OpenForm; Gallery.TypeTitle (lit "Algorithms");
             Gallery.Submit 1700000000000]))
    by (simpl; apply NoDup_singleton).
  assert (Hclosed : App.isAddingCard (Gallery.app
            (Gallery.run rejecting
               (Gallery.initialLoad rejecting
                  {[ Card.storageKey (lit "web-design") := lit "true" ]})
               [Gallery.ClickLike (lit "css-animations");
                Gallery.OpenForm; Gallery.TypeTitle (lit "Algorithms");
                Gallery.Submit 1700000000000])) = false)
    by (vm_compute; reflexivity).
  split; [exact Hclosed |].
  apply (open_type_cancel_changes_nothing rejecting _ _ (lit "Data")
           Hflags Hclock Hclosed).
Defined.

Lemma savedLiked_same_entry (storage storage' : Storage) (card : App.CardRec) :
  storage' !! Card.storageKey (App.id card)
  = storage !! Card.storageKey (App.id card) →
  App.savedLiked storage' card = App.savedLiked storage card.
Proof. unfold App.savedLiked. by intros ->. Qed.

(** X12: the like state survives a reload.  On a page reached from a
    store of flags, loading the page again over the store as it now is
    shows every seed card that is still listed with the label it has
    now, and the page renders. *)
Theorem like_state_survives_reload (parse_other : jsstring → parsed)
    (storage : Storage) (events : list Gallery.Event) (card : App.CardRec) :
  flagsOnly storage → NoDup (Gallery.clockReadings events) →
  let w := Gallery.run parse_other (Gallery.initialLoad parse_other storage)
             events in
  let reloaded := Gallery.initialLoad parse_other (Gallery.localStorage w) in
  card ∈ App.initialCards → card ∈ App.cards (Gallery.app w) →
  Gallery.cardView reloaded card = Gallery.cardView w card
  ∧ is_Some (Gallery.cardView w card)
  ∧ Gallery.view reloaded
    = View.Content (Gallery.header reloaded) (Gallery.main reloaded).
Proof.
  intros Hflags Hclock. cbv zeta. intros Hseed Hlisted.
  destruct (reached_consistent parse_other storage events Hflags Hclock)
    as [used Hw].
  pose proof (initialLoad_consistent parse_other _ (flags _ _ Hw)) as Hre.
  assert (Hin : card ∈ App.cards (Gallery.app
            (Gallery.initialLoad parse_other
               (Gallery.localStorage
                  (Gallery.run parse_other
                     (Gallery.initialLoad parse_other storage) events)))))
    by (by rewrite initialLoad_cards).
  unfold Gallery.cardView.
  rewrite (states _ _ Hre card Hin), (states _ _ Hw card Hlisted).
  assert (Hstore : Gallery.localStorage
            (Gallery.initialLoad parse_other
               (Gallery.localStorage
                  (Gallery.run parse_other
                     (Gallery.initialLoad parse_other storage) events)))
          = Gallery.localStorage
              (Gallery.run parse_other
                 (Gallery.initialLoad parse_other storage) events))
    by (unfold Gallery.initialLoad at 1; simpl; by rewrite render_localStorage).
  rewrite Hstore. split; [done |]. split; [by eexists |].
  by destruct (consistent_count _ _ Hre).
Qed.

Lemma like_state_survives_reload_witness :
  let events := [Gallery.ClickLike (lit "web-design");
                 Gallery.ClickLike (lit "react-dev");
                 Gallery.ClickDelete (lit "css-animations") true] in
  let w := Gallery.run rejecting (Gallery.initialLoad rejecting ∅) events in
  let reloaded := Gallery.initialLoad rejecting (Gallery.localStorage w) in
  let card := {| App.id := lit "web-design";
                 App.title := lit "Web Design Principles";
                 App.initialLiked := false |} in
  View.status <$> Gallery.cardView w card = Some (lit "Liked")
  ∧ Gallery.cardView reloaded card = Gallery.cardView w card.
Proof.
  cbv zeta. split; [vm_compute; reflexivity |].
  apply (like_state_survives_reload rejecting ∅
           [Gallery.ClickLike (lit "web-design");
            Gallery.ClickLike (lit "react-dev");
            Gallery.ClickDelete (lit "css-animations") true]
           {| App.id := lit "web-design";
              App.title := lit "Web Design Principles";
              App.initialLiked := false |}).
  - intros i text Hi. by rewrite lookup_empty in Hi.
  - simpl. apply NoDup_nil_2.
  - apply list_elem_of_lookup. exists 3%nat. reflexivity.
  - apply list_elem_of_lookup. exists 2%nat. vm_compute. reflexivity.
Defined.

(** X13: each Card keeps its state whatever happens to another.  On a
    page reached from a store of flags, a like of one card, or its
    delete (confirmed or not), leaves every listed card with another id
    listed and showing what it showed. *)
Theorem cards_are_independent (parse_other : jsstring → parsed)
    (storage : Storage) (events : list Gallery.Event)
    (ev : Gallery.Event) (key : jsstring) (other : App.CardRec) :
  flagsOnly storage → NoDup (Gallery.clockReadings events) →
  let w := Gallery.run parse_other (Gallery.initialLoad parse_other storage)
             events in
  (ev = Gallery.ClickLike key ∨ ∃ confirmed, ev = Gallery.ClickDelete key confirmed) →
  other ∈ App.cards (Gallery.app w) → App.id other ≠ key →
  other ∈ App.cards (Gallery.app (Gallery.step parse_other w ev))
  ∧ Gallery.cardView (Gallery.step parse_other w ev) other
    = Gallery.cardView w other.
Proof.
  intros Hflags Hclock. cbv zeta. intros Hev Hlisted Hother.
  destruct (reached_consistent parse_other storage events Hflags Hclock)
    as [used Hw].
  set (w := Gallery.run parse_other
              (Gallery.initialLoad parse_other storage) events) in *.
  assert (Hw' : consistent used (Gallery.step parse_other w ev)).
  { destruct Hev as [-> | [confirmed ->]]; simpl.
    - by apply clickLike_consistent.
    - by apply clickDelete_consistent. }
  assert (Hin : other ∈ App.cards (Gallery.app (Gallery.step parse_other w ev))).
  { destruct (step_cards parse_other w ev)
      as [-> | [(k & Hk & ->) | (now & Hnow & _)]]; [done | |].
    - apply list_elem_of_filter. split; [| done].
      intros Heq. injection Heq as Heq.
      destruct Hev as [-> | [confirmed ->]]; congruence.
    - destruct Hev as [-> | [confirmed ->]]; discriminate. }
  split; [exact Hin |]. unfold Gallery.cardView.
  rewrite (states _ _ Hw' other Hin), (states _ _ Hw other Hlisted).
  rewrite (savedLiked_same_entry (Gallery.localStorage w)); [done |].
  apply step_storage_frame. intros i Hi Heq.
  apply storageKey_inj in Heq. subst i.
  destruct Hev as [-> | [confirmed ->]]; destruct Hi as [Hi | Hi]; congruence.
Qed.

Lemma cards_are_independent_witness :
  let w := Gallery.run rejecting (Gallery.initialLoad rejecting ∅) [] in
  let other := {| App.id := lit "web-design";
                  App.title := lit "Web Design Principles";
                  App.initialLiked := false |} in
  let w' := Gallery.step rejecting w
              (Gallery.ClickDelete (lit "react-dev") true) in
  other ∈ App.cards (Gallery.app w')
  ∧ Gallery.cardView w' other = Gallery.cardView w other.
Proof.
  cbv zeta.
  apply (cards_are_independent rejecting ∅ []
           (Gallery.ClickDelete (lit "react-dev") true) (lit "react-dev")
           {| App.id := lit "web-design";
              App.title := lit "Web Design Principles";
              App.initialLiked := false |}).
  - intros i text Hi. by rewrite lookup_empty in Hi.
  - simpl. apply NoDup_nil_2.
  - right. by exists true.
  - apply list_elem_of_lookup. exists 3%nat. vm_compute. reflexivity.
  - vm_compute. discriminate.
Defined.

Lemma size_add_new (X : gset Card.cardId_t) (x : Card.cardId_t) :
  x ∉ X → size (X ∪ {[ x ]}) = S (size X).
Proof.
  intros Hx. rewrite size_union, size_singleton; [lia |].
  intros y Hy Hy'. apply elem_of_singleton in Hy'. by subst y.
Qed.

Lemma size_remove_old (X : gset Card.cardId_t) (x : Card.cardId_t) :
  x ∈ X → S (size (X ∖ {[ x ]})) = size X.
Proof.
  intros Hx.
  assert (HX : X = (X ∖ {[ x ]}) ∪ {[ x ]}).
  { apply set_eq. intros y. rewrite elem_of_union, elem_of_difference,
      elem_of_singleton.
    destruct (decide (y = x)) as [-> | Hy]; tauto. }
  rewrite HX at 2. rewrite size_add_new; [done |].
  rewrite elem_of_difference, elem_of_singleton. tauto.
Qed.

(** X14: a like moves the liked count by exactly one.  On a page
    reached from a store of flags, clicking the like button of a listed
    card flips its label, leaves the total as it is, and raises the
    liked count by one when the card showed Not Liked, or lowers it by
    one when it showed Liked. *)
Theorem like_moves_count_by_one (parse_other : jsstring → parsed)
    (storage : Storage) (events : list Gallery.Event) (card : App.CardRec) :
  flagsOnly storage → NoDup (Gallery.clockReadings events) →
  let w := Gallery.run parse_other (Gallery.initialLoad parse_other storage)
             events in
  let w' := Gallery.step parse_other w (Gallery.ClickLike (App.id card)) in
  card ∈ App.cards (Gallery.app w) →
  App.totalCards (Gallery.app w') = App.totalCards (Gallery.app w)
  ∧ ((View.status <$> Gallery.cardView w card = Some (lit "Not Liked")
      ∧ View.status <$> Gallery.cardView w' card = Some (lit "Liked")
      ∧ App.likeCount (Gallery.app w') = S (App.likeCount (Gallery.app w)))
     ∨ (View.status <$> Gallery.cardView w card = Some (lit "Liked")
        ∧ View.status <$> Gallery.cardView w' card = Some (lit "Not Liked")
        ∧ S (App.likeCount (Gallery.app w')) = App.likeCount (Gallery.app w))).
Proof.
  intros Hflags Hclock. cbv zeta. intros Hlisted.
  destruct (reached_consistent parse_other storage events Hflags Hclock)
    as [used Hw].
  set (w := Gallery.run parse_other
              (Gallery.initialLoad parse_other storage) events) in *.
  assert (Hw' : consistent used (Gallery.step parse_other w
                                   (Gallery.ClickLike (App.id card))))
    by (by apply clickLike_consistent).
  pose proof Hw as [Hok _ Hnd Horigin Hstates _ Hsync].
  pose proof (origin_truthy used card (Horigin card Hlisted)) as Hid.
  destruct (cardOf_elem _ _ Hlisted) as (first & Hfirst & Hsame).
  pose proof Hfirst as Hfirst'. apply cardOf_Some in Hfirst' as [Hin _].
  assert (first = card) by (by apply (same_id_same_card _ _ _ Hnd)).
  subst first.
  assert (Hstep : Gallery.app (Gallery.step parse_other w
                                 (Gallery.ClickLike (App.id card)))
                  = App.handleLikeChange (Some (App.id card))
                      (negb (App.savedLiked (Gallery.localStorage w) card))
                      (Gallery.app w)
                  ∧ Gallery.localStorage (Gallery.step parse_other w
                                            (Gallery.ClickLike (App.id card)))
                    = <[Card.storageKey (App.id card)
                        := JSON_stringify
                             (negb (App.savedLiked (Gallery.localStorage w) card))]>
                        (Gallery.localStorage w)).
  { simpl. unfold Gallery.clickLike.
    rewrite Hok, Hfirst, (Hstates card Hlisted).
    unfold Card.toggleLike. simpl.
    by rewrite render_app, render_localStorage, Hid. }
  destruct Hstep as [Happ Hstore].
  assert (Hlisted' : card ∈ App.cards (Gallery.app
            (Gallery.step parse_other w (Gallery.ClickLike (App.id card)))))
    by (by rewrite Happ).
  assert (Hmember : Some (App.id card) ∈ App.likedCards (Gallery.app w)
                    ↔ App.savedLiked (Gallery.localStorage w) card = true).
  { rewrite Hsync, elem_of_likedSet. split.
    - intros (c & Hc & Hliked & Heq). injection Heq as Heq.
      by rewrite (same_id_same_card _ card c Hnd Hlisted Hc Heq).
    - intros Hliked. by exists card. }
  split; [by rewrite Happ |].
  unfold Gallery.cardView, App.likeCount.
  rewrite (states _ _ Hw' card Hlisted'), (Hstates card Hlisted), Hstore.
  rewrite savedLiked_insert_same, Happ. simpl.
  destruct (App.savedLiked (Gallery.localStorage w) card); simpl.
  - right. split; [done |]. split; [done |].
    apply size_remove_old. by apply Hmember.
  - left. split; [done |]. split; [done |].
    apply size_add_new. intros Hin'. by apply Hmember in Hin'.
Qed.

Lemma like_moves_count_by_one_witness :
  let w := Gallery.run rejecting (Gallery.initialLoad rejecting ∅)
             [Gallery.ClickLike (lit "react-dev")] in
  let w' := Gallery.step rejecting w (Gallery.ClickLike (lit "web-design")) in
  App.likeCount (Gallery.app w) = 1%nat
  ∧ App.totalCards (Gallery.app w') = App.totalCards (Gallery.app w)
  ∧ App.likeCount (Gallery.app w') = 2%nat.
Proof.
  cbv zeta.
  assert (Hcount : App.likeCount (Gallery.app
            (Gallery.run rejecting (Gallery.initialLoad rejecting ∅)
               [Gallery.ClickLike (lit "react-dev")])) = 1%nat)
    by (vm_compute; reflexivity).
  destruct (like_moves_count_by_one rejecting ∅
              [Gallery.ClickLike (lit "react-dev")]
              {| App.id := lit "web-design";
                 App.title := lit "Web Design Principles";
                 App.initialLiked := false |}) as [Htotal Hmoved].
  - intros i text Hi. by rewrite lookup_empty in Hi.
  - simpl. apply NoDup_nil_2.
  - apply list_elem_of_lookup. exists 3%nat. vm_compute. reflexivity.
  - split; [exact Hcount |]. split; [exact Htotal |].
    vm_compute. reflexivity.
Defined.

(** X15: every card the Gallery ever lists is a seed card or a record
    built by [handleAddCard] from a title that does not trim to nothing
    (so with a generated id and unliked by default); either way its id
    is not empty, so its Card reads and writes the store. *)
Theorem listed_cards_are_seeds_or_added (parse_other : jsstring → parsed)
    (storage : Storage) (events : list Gallery.Event) :
  Forall (λ card,
            truthy (App.id card) = true
            ∧ (card ∈ App.initialCards
               ∨ ∃ now title, card = App.newCard now title
                              ∧ truthy (trim title) = true))
    (App.cards (Gallery.app
       (Gallery.run parse_other (Gallery.initialLoad parse_other storage)
          events))).
Proof.
  set (Q := λ card : App.CardRec,
              truthy (App.id card) = true
              ∧ (card ∈ App.initialCards
                 ∨ ∃ now title, card = App.newCard now title
                                ∧ truthy (trim title) = true)).
  assert (Hrun : ∀ w, Forall Q (App.cards (Gallery.app w)) →
    Forall Q (App.cards (Gallery.app (Gallery.run parse_other w events)))).
  { induction events as [|ev events IH]; intros w Hw; [done |].
    simpl. apply IH.
    destruct (step_cards parse_other w ev)
      as [-> | [(key & _ & ->) | (now & _ & Htitle & ->)]].
    - done.
    - apply Forall_forall. intros c Hc.
      apply list_elem_of_filter in Hc as [_ Hc].
      by apply (proj1 (Forall_forall _ _) Hw).
    - apply Forall_app. split; [done |]. apply Forall_singleton.
      split; [reflexivity |]. right. by eexists _, _. }
  apply Hrun. rewrite initialLoad_cards.
  apply Forall_forall. intros card Hin.
  split; [by apply seed_truthy | by left].
Qed.

Lemma filter_length_ext {A : Type} (Q R : A → Prop)
    `{∀ x, Decision (Q x)} `{∀ x, Decision (R x)} (l : list A) :
  (∀ x, x ∈ l → (Q x ↔ R x)) →
  length (filter Q l) = length (filter R l).
Proof.
  induction l as [|x l IH]; intros Hext; [done |].
  rewrite !filter_cons.
  assert (IH' : length (filter Q l) = length (filter R l)).
  { apply IH. intros y Hy. apply Hext. by right. }
  destruct (Hext x) as [HQR HRQ]; [left |].
  destruct (decide (Q x)), (decide (R x)); simpl; try tauto; by f_equal.
Qed.

(** X16: a confirmed delete takes one card off the statistics.  On a
    page reached from a store of flags, deleting a listed card lowers
    the total by one, and the liked count by one when the card showed
    Liked and not at all when it showed Not Liked. *)
Theorem delete_takes_one_off_the_count (parse_other : jsstring → parsed)
    (storage : Storage) (events : list Gallery.Event) (card : App.CardRec) :
  flagsOnly storage → NoDup (Gallery.clockReadings events) →
  let w := Gallery.run parse_other (Gallery.initialLoad parse_other storage)
             events in
  let w' := Gallery.step parse_other w
              (Gallery.ClickDelete (App.id card) true) in
  card ∈ App.cards (Gallery.app w) →
  App.totalCards (Gallery.app w) = S (App.totalCards (Gallery.app w'))
  ∧ ((View.status <$> Gallery.cardView w card = Some (lit "Liked")
      ∧ App.likeCount (Gallery.app w) = S (App.likeCount (Gallery.app w')))
     ∨ (View.status <$> Gallery.cardView w card = Some (lit "Not Liked")
        ∧ App.likeCount (Gallery.app w) = App.likeCount (Gallery.app w'))).
Proof.
  intros Hflags Hclock. cbv zeta. intros Hlisted.
  destruct (reached_consistent parse_other storage events Hflags Hclock)
    as [used Hw].
  set (w := Gallery.run parse_other
              (Gallery.initialLoad parse_other storage) events) in *.
  assert (Hw' : consistent used (Gallery.step parse_other w
                                   (Gallery.ClickDelete (App.id card) true)))
    by (by apply clickDelete_consistent).
  pose proof Hw as [Hok _ Hnd Horigin Hstates _ Hsync].
  pose proof (origin_truthy used card (Horigin card Hlisted)) as Hid.
  destruct (cardOf_elem _ _ Hlisted) as (first & Hfirst & Hsame).
  assert (Hstep : App.cards (Gallery.app (Gallery.step parse_other w
                    (Gallery.ClickDelete (App.id card) true)))
                  = filter (λ c, Some (App.id c) ≠ Some (App.id card))
                      (App.cards (Gallery.app w))
                  ∧ Gallery.localStorage (Gallery.step parse_other w
                      (Gallery.ClickDelete (App.id card) true))
                    = delete (Card.storageKey (App.id card))
                        (Gallery.localStorage w)).
  { simpl. unfold Gallery.clickDelete.
    rewrite Hok, Hfirst, (Hstates card Hlisted).
    unfold Card.handleDelete, Gallery.runEffect. simpl.
    by rewrite render_app, render_localStorage, Hsame, Hid. }
  destruct Hstep as [Hcards Hstore].
  destruct (filter_removes_the_one _ card Hnd Hlisted)
    as (before & after & Hsplit & Hrest).
  rewrite Hrest in Hcards.
  assert (Hothers : ∀ c, c ∈ before ++ after →
    App.savedLiked (delete (Card.storageKey (App.id card))
                      (Gallery.localStorage w)) c
    = App.savedLiked (Gallery.localStorage w) c).
  { intros c Hc. apply savedLiked_delete_other. intros Heq.
    rewrite Hsplit, fmap_app, fmap_cons in Hnd.
    apply NoDup_app in Hnd as (_ & Hbefore & Hafter).
    apply NoDup_cons in Hafter as [Hafter _].
    apply elem_of_app in Hc as [Hc | Hc].
    - apply (Hbefore (App.id card)); [| left].
      rewrite <- Heq. by apply list_elem_of_fmap_2.
    - apply Hafter. rewrite <- Heq. by apply list_elem_of_fmap_2. }
  unfold App.totalCards, App.likeCount, Gallery.cardView.
  rewrite (synced _ _ Hw'), Hsync, (Hstates card Hlisted).
  rewrite !size_likedSet by (done || apply (distinct _ _ Hw')).
  rewrite Hcards, Hstore, Hsplit.
  rewrite (filter_length_ext _
             (λ c, App.savedLiked (Gallery.localStorage w) c = true)
             (before ++ after))
    by (intros c Hc; by rewrite Hothers).
  rewrite !filter_app, filter_cons, !length_app. simpl.
  split; [lia |].
  destruct (App.savedLiked (Gallery.localStorage w) card); simpl.
  - left. split; [done | lia].
  - right. split; [done | lia].
Qed.

Lemma delete_takes_one_off_the_count_witness :
  let w := Gallery.run rejecting (Gallery.initialLoad rejecting ∅) [] in
  let w' := Gallery.step rejecting w
              (Gallery.ClickDelete (lit "react-dev") true) in
  App.totalCards (Gallery.app w) = S (App.totalCards (Gallery.app w'))
  ∧ App.likeCount (Gallery.app w) = 2%nat
  ∧ App.likeCount (Gallery.app w') = 1%nat.
Proof.
  cbv zeta.
  destruct (delete_takes_one_off_the_count rejecting ∅ []
              {| App.id := lit "react-dev";
                 App.title := lit "React Development";
                 App.initialLiked := true |}) as [Htotal _].
  - intros i text Hi. by rewrite lookup_empty in Hi.
  - simpl. apply NoDup_nil_2.
  - left.
  - split; [exact Htotal |]. split; vm_compute; reflexivity.
Defined.

Lemma savedLiked_newCard (storage : Storage) (now : N) (title : jsstring) :
  App.savedLiked storage (App.newCard now title)
  = bool_decide (storage !! Card.storageKey (generatedId now)
                 = Some (lit "true")).
Proof.
  unfold App.savedLiked, App.newCard, generatedId.
  cbn [App.id App.initialLiked]. by rewrite andb_false_r, orb_false_r.
Qed.

Lemma cardView_status (w : Gallery.World) (card : App.CardRec) :
  View.status <$> Gallery.cardView w card
  = Card.statusLabel <$> Gallery.mounted w !! App.id card.
Proof. unfold Gallery.cardView. by destruct (Gallery.mounted w !! _). Qed.

Lemma statusLabel_Liked (isLiked : bool) :
  Some (Card.statusLabel isLiked) = Some (lit "Liked") ↔ isLiked = true.
Proof.
  destruct isLiked; split; intros H; done.
Qed.

(** X17: a card just added shows what the store already holds for it.
    On a page reached from a store of flags, a submit that adds a card
    at a clock reading not used before leaves the new Card mounted, and
    it shows Liked exactly when the store held the text [true] under the
    key of the generated id; with no entry there, or with [false], it
    shows Not Liked, as its default says. *)
Theorem added_card_shows_stored_flag (parse_other : jsstring → parsed)
    (storage : Storage) (events : list Gallery.Event) (now : N) :
  flagsOnly storage →
  NoDup (Gallery.clockReadings (events ++ [Gallery.Submit now])) →
  let w := Gallery.run parse_other (Gallery.initialLoad parse_other storage)
             events in
  let w' := Gallery.step parse_other w (Gallery.Submit now) in
  let card := App.newCard now (App.newCardTitle (Gallery.app w)) in
  App.isAddingCard (Gallery.app w) = true →
  truthy (trim (App.newCardTitle (Gallery.app w))) = true →
  card ∈ App.cards (Gallery.app w')
  ∧ is_Some (Gallery.cardView w' card)
  ∧ (View.status <$> Gallery.cardView w' card = Some (lit "Liked")
     ↔ Gallery.localStorage w !! Card.storageKey (generatedId now)
       = Some (lit "true")).
Proof.
  intros Hflags Hclock. cbv zeta. intros Hform Htitle.
  destruct (reached_consistent parse_other storage _ Hflags Hclock)
    as [used Hw'].
  unfold Gallery.run in Hw'. rewrite foldl_app in Hw'. simpl in Hw'.
  fold (Gallery.run parse_other (Gallery.initialLoad parse_other storage)
          events) in Hw'.
  set (w := Gallery.run parse_other
              (Gallery.initialLoad parse_other storage) events) in *.
  assert (Hok : ErrorBoundary.hasError (Gallery.boundary w) = false).
  { destruct (ErrorBoundary.hasError (Gallery.boundary w)) eqn:Herr; [| done].
    pose proof (rendering _ _ Hw') as Hok'.
    unfold Gallery.submit in Hok'. rewrite Herr in Hok'. congruence. }
  assert (Hstep : App.cards (Gallery.app (Gallery.submit parse_other now w))
                  = App.cards (Gallery.app w)
                    ++ [App.newCard now (App.newCardTitle (Gallery.app w))]
                  ∧ Gallery.localStorage (Gallery.submit parse_other now w)
                    = Gallery.localStorage w).
  { unfold Gallery.submit, App.handleSubmit, App.handleAddCard.
    rewrite Hok, Hform, Htitle. simpl.
    by rewrite render_app, render_localStorage. }
  destruct Hstep as [Hcards Hstore]. simpl.
  assert (Hin : App.newCard now (App.newCardTitle (Gallery.app w))
                ∈ App.cards (Gallery.app (Gallery.submit parse_other now w))).
  { rewrite Hcards. apply elem_of_app. right. left. }
  split; [exact Hin |]. rewrite cardView_status.
  unfold Gallery.cardView. rewrite (states _ _ Hw' _ Hin), Hstore.
  split; [by eexists |].
  rewrite savedLiked_newCard.
  change (Card.statusLabel <$> Some ?b) with (Some (Card.statusLabel b)).
  rewrite statusLabel_Liked. apply bool_decide_eq_true.
Qed.

Lemma added_card_shows_stored_flag_witness :
  let storage : Storage :=
    {[ Card.storageKey (lit "card-1700000000000") := lit "true" ]} in
  let w := Gallery.run rejecting (Gallery.initialLoad rejecting storage)
             [Gallery.OpenForm; Gallery.TypeTitle (lit "Algorithms")] in
  let w' := Gallery.step rejecting w (Gallery.Submit 1700000000000) in
  let card := {| App.id := lit "card-1700000000000";
                 App.title := lit "Algorithms";
                 App.initialLiked := false |} in
  card ∈ App.cards (Gallery.app w')
  ∧ View.status <$> Gallery.cardView w' card = Some (lit "Liked").
Proof.
  cbv zeta.
  destruct (added_card_shows_stored_flag rejecting
              {[ Card.storageKey (lit "card-1700000000000") := lit "true" ]}
              [Gallery.OpenForm; Gallery.TypeTitle (lit "Algorithms")]
              1700000000000) as (Hin & _ & Hshown).
  - intros i text Hi. apply lookup_singleton_Some in Hi as [_ <-]. by left.
  - simpl. apply NoDup_singleton.
  - vm_compute. reflexivity.
  - vm_compute. reflexivity.
  - split; [exact Hin |]. apply Hshown. vm_compute. reflexivity.
Defined.
